(** * dyndns_dreamhost: a shallow embedding of the Dreamhost dynamic-DNS updater

    The development follows [dyndns_dreamhost.py] function by function.
    Python values that cross the JSON boundary are kept dynamically typed
    ([pyval]); the effects of the script (HTTP requests, random nonces, the
    cache and log files, exceptions) are threaded through a state-and-exception
    monad [M] over a [World], with the outside (provider, network stack,
    file permissions, library functions that are not part of the script)
    supplied by an environment [Env]. *)

From stdpp Require Import base option list strings gmap.
From Stdlib Require Import ZArith Ascii String.

Local Open Scope string_scope.
Local Open Scope Z_scope.

(** ** Python values and exceptions *)

(** Values produced by [json.loads] and handed to [urllib.parse.urlencode].
    A [dict] is kept as its items in insertion order; lookups take the first
    item with the key. JSON numbers are represented by integers: the script
    never computes with them, it only subscripts, iterates and compares
    against strings. *)
#[local] Unset Elimination Schemes.
Inductive pyval :=
| PNone
| PBool (b : bool)
| PInt (z : Z)
| PStr (s : string)
| PList (l : list pyval)
| PDict (items : list (string * pyval)).
#[local] Set Elimination Schemes.

(** The exception classes that occur in the script. [ConnectionError] is the
    class defined at the top of the module (it shadows the built-in of the
    same name); the others are Python's or the standard library's own.
    [LibraryError cls os_error] is an exception of the class [cls] that the
    HTTP client or the socket layer raises while a response is received or
    read ([RemoteDisconnected], [BadStatusLine], [IncompleteRead], a
    timeout): neither a [URLError] nor a [ValueError]; [os_error] tells
    whether the class derives from [OSError]. *)
Inductive exn :=
| ConnectionError (msg : option string)
| URLError (strerror : option string)
| OSError (strerror : option string)
| ValueError
| TypeError
| KeyError (key : string)
| NameError (name : string)
| UnboundLocalError (name : string)
| ArgumentError (option_string : string)
| SystemExit (code : Z)
| UnicodeDecodeError
| UnicodeEncodeError
| LibraryError (cls : string) (os_error : bool).


(** [except OSError], [except IOError] and [except socket.error] all name the
    same class in Python 3; [URLError] derives from it. *)
Definition isinstance_OSError (e : exn) : bool :=
  match e with
  | OSError _ | URLError _ => true
  | LibraryError _ os_error => os_error
  | _ => false
  end.

Definition isinstance_URLError (e : exn) : bool :=
  match e with
  | URLError _ => true
  | _ => false
  end.

Definition isinstance_ConnectionError (e : exn) : bool :=
  match e with
  | ConnectionError _ => true
  | _ => false
  end.

(** [UnicodeDecodeError] and [UnicodeEncodeError] derive from [ValueError]. *)
Definition isinstance_ValueError (e : exn) : bool :=
  match e with
  | ValueError | UnicodeDecodeError | UnicodeEncodeError => true
  | _ => false
  end.

(** The outcome of evaluating a Python expression or statement. *)
Inductive res (A : Type) :=
| Return (a : A)
| Raise (e : exn).
Arguments Return {A} a.
Arguments Raise {A} e.

#[export] Instance res_ret : MRet res := fun A a => Return a.

#[export] Instance res_bind : MBind res := fun A B f r =>
  match r with
  | Return a => f a
  | Raise e => Raise e
  end.

(** [repr(v)] of a string or [None]. The quotes and backslashes of the
    string, which [repr] escapes, are left as they are. *)
Definition py_repr (v : option string) : string :=
  match v with
  | Some t => "'" ++ t ++ "'"
  | None => "None"
  end.

(** [strerror] attributes may be [None]; [str.format] prints that as "None". *)
Definition format_opt (s : option string) : string :=
  match s with
  | Some t => t
  | None => "None"
  end.

(** [ConnectionError.__str__]: [repr(self.msg)]. *)
Definition ConnectionError_str (e : exn) : string :=
  match e with
  | ConnectionError msg => py_repr msg
  | _ => ""
  end.

Module Py.

(** [d[k]] on a dict's items. *)
Fixpoint lookup_item (k : string) (items : list (string * pyval)) : option pyval :=
  match items with
  | [] => None
  | (k', v) :: rest => if String.eqb k' k then Some v else lookup_item k rest
  end.

(** [v[k]] for a string key [k]: only a dict can be subscripted by a
    string; a missing key is a [KeyError], any other receiver a
    [TypeError] (['NoneType' object is not subscriptable], [list indices
    must be integers], ...). *)
Definition getitem (v : pyval) (k : string) : res pyval :=
  match v with
  | PDict items =>
      match lookup_item k items with
      | Some x => Return x
      | None => Raise (KeyError k)
      end
  | _ => Raise TypeError
  end.

(** [v == s] for a string [s]: true exactly when [v] is that string. *)
Definition eq_str (v : pyval) (s : string) : bool :=
  match v with
  | PStr t => String.eqb t s
  | _ => false
  end.

Definition is_None (v : pyval) : bool :=
  match v with
  | PNone => true
  | _ => false
  end.

Fixpoint chars (s : string) : list pyval :=
  match s with
  | EmptyString => []
  | String c rest => PStr (String c EmptyString) :: chars rest
  end.

(** The elements [for x in v] and [filter(f, v)] enumerate: the items of a
    list, the keys of a dict, the characters of a string; the other values
    are not iterable. *)
Definition iter (v : pyval) : res (list pyval) :=
  match v with
  | PList l => Return l
  | PDict items => Return (map (fun kv => PStr (fst kv)) items)
  | PStr s => Return (chars s)
  | _ => Raise TypeError
  end.

(** Whitespace in the sense of [str.isspace], for the code points below
    256 that a Rocq character can hold. *)
Definition isspace (c : ascii) : bool :=
  let n := nat_of_ascii c in
  ((9 <=? n) && (n <=? 13) || (28 <=? n) && (n <=? 32)
   || (n =? 133) || (n =? 160))%nat.

(** What reading a file in text mode makes of the line endings: a carriage
    return followed by a line feed, and a carriage return alone, both
    become one line feed. *)
Fixpoint universal_newlines (s : string) : string :=
  match s with
  | EmptyString => EmptyString
  | String c rest =>
      if Ascii.eqb c "013"
      then String "010"
             match rest with
             | String d rest' =>
                 if Ascii.eqb d "010" then universal_newlines rest'
                 else universal_newlines rest
             | EmptyString => EmptyString
             end
      else String c (universal_newlines rest)
  end.

(** [s.rstrip()]: drop the trailing whitespace. *)
Fixpoint rstrip (s : string) : string :=
  match s with
  | EmptyString => EmptyString
  | String c rest =>
      match rstrip rest with
      | EmptyString => if isspace c then EmptyString else String c EmptyString
      | kept => String c kept
      end
  end.

End Py.

(** ** The world the script runs in *)

(** A request: the fixed base URL and the parameter dict given to
    [urllib.parse.urlencode], in insertion order. *)
Definition Url : Type := string * list (string * pyval).

(** What becomes of a request. [urllib.request.urlopen] raises [URLError]
    (name resolution, connection, TLS, HTTP status); or the response is
    cut short: its status line or its body cannot be received, and
    [getresponse()] inside [urlopen], or [data.read()], raises an
    exception of the HTTP client or the socket layer that [urlopen] does
    not wrap ([Interrupted]); or the body arrives, and
    [data.read().decode('utf-8')] and [json.loads] turn it into a value,
    or one of the two raises [ValueError] ([body = None]). *)
Inductive http_outcome :=
| TransportFailure (strerror : option string)
| Interrupted (cls : string) (os_error : bool)
| Response (body : option pyval).

(** What connecting the datagram socket does: [getsockname()[0]] afterwards,
    or a [socket.error]. *)
Inductive socket_outcome :=
| SockName (ip : string)
| SocketError (strerror : option string).

(** The parsed command line ([argparse.Namespace]). *)
Record Namespace := {
  key : string;
  hostname : string;
  logfile : string;
  clean : bool;
  hard : bool
}.

(** Everything outside the script. The provider answers a request knowing
    the requests made before it; [random_uuid] is the stream of values that
    [str(uuid.uuid4())] draws; [name_uuid namespace name] stands for
    [str(uuid.uuid5(namespace, name))], the SHA-1 based name UUID; [route] is
    what the network stack does with the datagram socket; [writable] says
    which paths can be opened for writing; [encode] and [decode] are the
    codec of the locale, which text files are written and read with
    ([None]: the text, or the content of the file, is not valid in the
    encoding); [command_line] is what [parse_args] makes of an argument
    vector ([None]: usage error). *)
Record Env := {
  provider : list Url -> Url -> http_outcome;
  random_uuid : nat -> string;
  name_uuid : string -> string -> string;
  route : socket_outcome;
  writable : string -> bool;
  encode : string -> option string;
  decode : string -> option string;
  command_line : list string -> option Namespace
}.

(** What the script changes: the requests it has sent (oldest first), the
    number of random nonces it has drawn, and the files, each with its
    content as it is stored. A file that is not in [files] cannot be opened
    for reading. Text written to a file is stored encoded; the line
    separator of the system is the line feed, as on the systems whose
    [crontab] the script is meant for, so that writing leaves the line
    endings of the text as they are. *)
Record World := {
  sent : list Url;
  draws : nat;
  files : gmap string string
}.

(** The world after one more request has gone out. *)
Definition sending (url : Url) (w : World) : World :=
  {| sent := sent w ++ [url]; draws := draws w; files := files w |}.

(** The world after one more random nonce has been drawn. *)
Definition drawn (w : World) : World :=
  {| sent := sent w; draws := S (draws w); files := files w |}.

(** ** The monad of statements *)

Definition M (A : Type) : Type := World -> res A * World.

#[export] Instance M_ret : MRet M := fun A a w => (Return a, w).

#[export] Instance M_bind : MBind M := fun A B f m w =>
  match m w with
  | (Return a, w') => f a w'
  | (Raise e, w') => (Raise e, w')
  end.

Definition raise {A} (e : exn) : M A := fun w => (Raise e, w).

Definition lift {A} (r : res A) : M A := fun w => (r, w).

(** [try: body / except ...: handler / else: orelse]. The handler is chosen
    by the [except] clauses ([None]: no clause matches, the exception goes
    on); [orelse] runs after a body that did not raise and is not covered by
    the clauses. *)
Definition try_except_else {A B} (body : M A) (handler : exn -> option (M B))
    (orelse : A -> M B) : M B := fun w =>
  match body w with
  | (Return a, w') => orelse a w'
  | (Raise e, w') =>
      match handler e with
      | Some h => h w'
      | None => (Raise e, w')
      end
  end.

Definition try_except {A} (body : M A) (handler : exn -> option (M A)) : M A :=
  try_except_else body handler mret.

(** [for x in xs: body x]. *)
Fixpoint for_each {A} (xs : list A) (body : A -> M unit) : M unit :=
  match xs with
  | [] => mret ()
  | x :: rest => body x ;; for_each rest body
  end.

(** [list(filter(f, r))]. *)
Fixpoint filter_list (f : pyval -> res bool) (xs : list pyval) : res (list pyval) :=
  match xs with
  | [] => Return []
  | x :: rest =>
      b ← f x;
      kept ← filter_list f rest;
      mret (if (b : bool) then x :: kept else kept)
  end.

Definition py_filter (f : pyval -> res bool) (r : pyval) : res pyval :=
  xs ← Py.iter r;
  kept ← filter_list f xs;
  mret (PList kept).

(** A call [obj.method(args)] of a function defined with [nparams]
    positional parameters: the instance is passed first, so the call
    supplies one more argument than written, and a mismatch is a
    [TypeError] raised before the body runs. *)
Definition call_bound_method {A} (nparams nargs : nat) (body : M A) : M A :=
  if Nat.eqb nparams (S nargs) then body else raise TypeError.

(** Reading a local variable that no executed statement has assigned. *)
Definition load_local {A} (name : string) (v : option A) : M A :=
  match v with
  | Some a => mret a
  | None => raise (UnboundLocalError name)
  end.

(** ** The script *)

Section Script.

Variable E : Env.

(** *** Library operations the script calls *)

(** [urllib.request.urlopen(url)], followed by reading and decoding the
    body: one outbound request, recorded in [sent]. An exception that
    interrupts the response is the same to [request_json] whether it
    leaves [urlopen] or [data.read()]: it is neither the [URLError] that
    the first [try] catches nor the [ValueError] that the second one does. *)
Definition urlopen (url : Url) : M (option pyval) := fun w =>
  match provider E (sent w) url with
  | TransportFailure s => (Raise (URLError s), sending url w)
  | Interrupted cls os_error => (Raise (LibraryError cls os_error), sending url w)
  | Response body => (Return body, sending url w)
  end.

Definition json_loads (body : option pyval) : M pyval :=
  match body with
  | Some v => mret v
  | None => raise ValueError
  end.

(** [str(uuid.uuid4())]: the next value of the random stream. *)
Definition uuid4 : M string := fun w => (Return (random_uuid E (draws w)), drawn w).

Definition NAMESPACE_URL : string := "6ba7b811-9dad-11d1-80b4-00c04fd430c8".

Definition uuid5 (namespace name : string) : string := name_uuid E namespace name.

(** [e.strerror]. *)
Definition strerror (e : exn) : option string :=
  match e with
  | URLError s | OSError s => s
  | _ => None
  end.

(** [open(name)]: the file as it is stored. *)
Definition open_text (name : string) : M string := fun w =>
  match files w !! name with
  | Some content => (Return content, w)
  | None => (Raise (OSError (Some "No such file or directory")), w)
  end.

(** [f.read()] on a file opened in text mode: the content is decoded, which
    raises [UnicodeDecodeError] when it is not valid in the encoding, and
    the line endings are translated. *)
Definition file_read (content : string) : M string :=
  match decode E content with
  | Some text => mret (Py.universal_newlines text)
  | None => raise UnicodeDecodeError
  end.

(** [open(name, 'w')]: the file is created or truncated. *)
Definition open_truncate (name : string) : M unit := fun w =>
  if writable E name
  then (Return (), {| sent := sent w; draws := draws w;
                      files := <[name := ""]> (files w) |})
  else (Raise (OSError (Some "Permission denied")), w).

(** [open(name, 'a')]: the file is created when it does not exist. *)
Definition open_append (name : string) : M unit := fun w =>
  if writable E name
  then (Return (), {| sent := sent w; draws := draws w;
                      files := <[name := default "" (files w !! name)]> (files w) |})
  else (Raise (OSError (Some "Permission denied")), w).

(** [f.write(text)] on a file opened for writing in text mode: the text is
    encoded, which raises [UnicodeEncodeError] when the encoding cannot
    express it. *)
Definition file_write (name text : string) : M unit := fun w =>
  match encode E text with
  | Some stored =>
      (Return (), {| sent := sent w; draws := draws w;
                     files := <[name := default "" (files w !! name) ++ stored]> (files w) |})
  | None => (Raise UnicodeEncodeError, w)
  end.

(** [s.connect(("google.com", 80)); s.getsockname()[0]]. *)
Definition socket_connect : M string :=
  match route E with
  | SockName ip => mret ip
  | SocketError s => raise (OSError s)
  end.

(** *** [class Log] *)

Record Log := { do_log : bool; log_path : string }.

(** [Log.__init__]. *)
Definition Log_init (logfile : string) (do_log : bool) : M Log :=
  if do_log
  then open_append logfile ;; mret {| do_log := do_log; log_path := logfile |}
  else mret {| do_log := do_log; log_path := logfile |}.

(** [Log.log] is declared [def log(msg)], with one parameter; every call
    in the script is [logfile.log(text)] on an instance. Its body, which
    reads a name [self] that is not a parameter, is never entered. *)
Definition Log_log (self : Log) (msg : string) : M unit :=
  call_bound_method 1 1 (raise (NameError "self")).

(** [with Log(...) as logfile: body]. [__enter__] returns the instance and
    [__exit__] closes the file and returns [None], so an exception raised
    in the body goes on. *)
Definition with_Log {A} (init : M Log) (body : Log -> M A) : M A :=
  logfile ← init; body logfile.

(** *** The API client *)

Definition api_url (params : list (string * pyval)) : Url :=
  ("https://api.dreamhost.com/?", params).

(** [request_json(url)]. *)
Definition request_json (url : Url) : M pyval :=
  data ← try_except (urlopen url)
    (fun e => if isinstance_URLError e
              then Some (raise (ConnectionError (strerror e))) else None);
  try_except (json_loads data)
    (fun e => if isinstance_ValueError e then Some (mret PNone) else None).

(** The [try: ... except urllib.error.URLError] the three operations put
    around [request_json]. *)
Definition request_api (params : list (string * pyval)) : M pyval :=
  try_except (request_json (api_url params))
    (fun e => if isinstance_URLError e
              then Some (raise (ConnectionError (strerror e))) else None).

Definition add_params (key record type : string) (value : pyval) (comment : string)
    : list (string * pyval) :=
  let params :=
    [("key", PStr key); ("uuid", PStr (uuid5 NAMESPACE_URL record));
     ("cmd", PStr "dns-add_record"); ("record", PStr record);
     ("type", PStr type); ("value", value); ("format", PStr "json")] in
  if String.eqb comment "" then params else params ++ [("comment", PStr comment)].

(** Lines 95 to 98 and 110 to 113: [result['result'] == 'success']. *)
Definition is_success (result : pyval) : res bool :=
  status ← Py.getitem result "result";
  if Py.eq_str status "success" then mret true else mret false.

(** [dyndns_add(key, record, type, value, comment='')]. *)
Definition dyndns_add (key record type : string) (value : pyval) (comment : string)
    : M bool :=
  result ← request_api (add_params key record type value comment);
  lift (is_success result).

Definition rem_params (key record type : string) (value : pyval)
    : list (string * pyval) :=
  [("key", PStr key); ("uuid", PStr (uuid5 NAMESPACE_URL record));
   ("cmd", PStr "dns-remove_record"); ("record", PStr record);
   ("type", PStr type); ("value", value); ("format", PStr "json")].

(** [dyndns_rem(key, record, type, value)]. *)
Definition dyndns_rem (key record type : string) (value : pyval) : M bool :=
  result ← request_api (rem_params key record type value);
  lift (is_success result).

Definition list_params (key nonce : string) : list (string * pyval) :=
  [("key", PStr key); ("uuid", PStr nonce); ("cmd", PStr "dns-list_records");
   ("format", PStr "json")].

(** [lambda x: x[field] == wanted]. *)
Definition field_is (field wanted : string) (x : pyval) : res bool :=
  v ← Py.getitem x field;
  mret (Py.eq_str v wanted).

(** [if wanted is not None: r = list(filter(lambda x: x[field] == wanted, r))]. *)
Definition filter_by (field : string) (wanted : option string) (r : pyval) : res pyval :=
  match wanted with
  | Some s => py_filter (field_is field s) r
  | None => mret r
  end.

(** Lines 125 to 135: what [dyndns_list] returns for a parsed response. *)
Definition select_records (editable record type : option string) (result : pyval)
    : res pyval :=
  status ← Py.getitem result "result";
  if Py.eq_str status "success" then
    r ← Py.getitem result "data";
    r ← filter_by "editable" editable r;
    r ← filter_by "record" record r;
    r ← filter_by "type" type r;
    mret r
  else mret PNone.

(** [dyndns_list(key, editable=None, record=None, type=None)]. *)
Definition dyndns_list (key : string) (editable record type : option string)
    : M pyval :=
  nonce ← uuid4;
  result ← request_api (list_params key nonce);
  lift (select_records editable record type result).

(** Line 142, the body of the loop of [dyndns_clean]:
    [dyndns_rem(key=key, record=record, type=type, value=r['value'])]. *)
Definition remove_listed (key record type : string) (r : pyval) : M unit :=
  value ← lift (Py.getitem r "value");
  dyndns_rem key record type value ;; mret ().

(** [dyndns_clean(key, record, type='A')]. *)
Definition dyndns_clean (key record type : string) : M unit :=
  results ← dyndns_list key (Some "1") (Some record) (Some type);
  if Py.is_None results then mret ()
  else
    rs ← lift (Py.iter results);
    for_each rs (remove_listed key record type).

(** *** The IP resolver *)

(** [get_current_ip()]. *)
Definition get_current_ip : M string :=
  try_except socket_connect
    (fun e => if isinstance_OSError e
              then Some (raise (ConnectionError
                     (Some ("Error connecting to Google. " ++ format_opt (strerror e) ++ "."))))
              else None).

End Script.

(** ** The reconciler: [main] *)

(** [current_ip is not None and (cached_ip is None or cached_ip != current_ip
    or params.hard)], on values that are a string or [None]. *)
Definition update_decision (cached_ip current_ip : option string) (hard : bool) : bool :=
  negb (bool_decide (current_ip = None))
  && (bool_decide (cached_ip = None) || negb (bool_decide (cached_ip = current_ip)) || hard).

Definition py_of (v : option string) : pyval :=
  match v with
  | Some s => PStr s
  | None => PNone
  end.

(** [v + text] for a string [text]: [None + text] is a [TypeError]. *)
Definition str_add (v : option string) (text : string) : res string :=
  match v with
  | Some s => Return (s ++ text)
  | None => Raise TypeError
  end.

Module Argparse.

(** The option strings a parser has registered. [ArgumentParser(...)] is
    created with [add_help] at its default, so it starts with the help
    option. *)
Definition ArgumentParser : list string := ["-h"; "--help"].

Definition is_option_string (name : string) : bool :=
  match name with
  | String "-" _ => true
  | _ => false
  end.

(** [parser.add_argument(name, ...)] with the default conflict handler: an
    option string that is already registered is an [ArgumentError]. *)
Definition add_argument (names : list string) (parser : list string)
    : res (list string) :=
  let option_strings := List.filter is_option_string names in
  match List.find (fun o => List.existsb (String.eqb o) parser) option_strings with
  | Some o => Raise (ArgumentError o)
  | None => Return (parser ++ option_strings)%list
  end.

Fixpoint add_arguments (decls : list (list string)) (parser : list string)
    : res (list string) :=
  match decls with
  | [] => Return parser
  | names :: rest =>
      match add_argument names parser with
      | Return parser' => add_arguments rest parser'
      | Raise e => Raise e
      end
  end.

End Argparse.

Section Reconciler.

Variable E : Env.

Definition ip_cachename_of (params : Namespace) : string :=
  "dyndns-" ++ hostname params ++ ".txt".

(** [os.remove(ip_cachename)]: the module never imports [os], so the name
    lookup fails before any file is touched. *)
Definition os_remove (name : string) : M unit := raise (NameError "os").

(** Lines 182 to 192: the branch taken with [--clean]. *)
Definition clean_branch (params : Namespace) (logfile : Log) (ip_cachename : string)
    : M (option Z) :=
  dyndns_clean E (key params) (hostname params) "A" ;;
  Log_log logfile (hostname params ++ ": Removed A record(s).") ;;
  try_except
    (os_remove ip_cachename ;;
     Log_log logfile (hostname params ++ ": Removed cache file " ++ ip_cachename ++ "."))
    (fun e => if isinstance_OSError e
              then Some (Log_log logfile
                     (hostname params ++ ": Unable to remove cache file "
                      ++ ip_cachename ++ ". " ++ format_opt (strerror e) ++ "."))
              else None) ;;
  mret (Some 0).

(** Lines 194 to 202: the cached address, [None] when the file cannot be
    opened. *)
Definition read_cache (params : Namespace) (logfile : Log) (ip_cachename : string)
    : M (option string) :=
  try_except_else (open_text ip_cachename)
    (fun e => if isinstance_OSError e
              then Some (Log_log logfile
                     (hostname params ++ ": Warning, couldn't read IP cache file "
                      ++ ip_cachename ++ ". " ++ format_opt (strerror e) ++ ".") ;;
                   mret None)
              else None)
    (fun ip_cache => text ← file_read E ip_cache; mret (Some (Py.rstrip text))).

(** Lines 204 to 207. The result is the state of the local variable
    [current_ip]: [Some v] when it is bound to [v]; the handler assigns
    nothing, so after it the variable would be unbound ([None]). *)
Definition resolve_ip (params : Namespace) (logfile : Log)
    : M (option (option string)) :=
  try_except (ip ← get_current_ip E; mret (Some (Some ip)))
    (fun e => if isinstance_ConnectionError e
              then Some (Log_log logfile
                     (hostname params ++ ": " ++ ConnectionError_str e) ;;
                   mret None)
              else None).

(** Lines 217 and 218: [with open(ip_cachename, 'w') as ip_cache:
    ip_cache.write(current_ip + '\n')]. *)
Definition write_cache (ip_cachename : string) (current_ip : option string) : M unit :=
  open_truncate E ip_cachename ;;
  text ← lift (str_add current_ip (String "010" EmptyString));
  file_write E ip_cachename text.

(** Lines 215 to 218: Add, then Persist. *)
Definition add_and_persist (params : Namespace) (ip_cachename : string)
    (current_ip : option string) : M unit :=
  dyndns_add E (key params) (hostname params) "A" (py_of current_ip) "" ;;
  write_cache ip_cachename current_ip.

(** Lines 212 to 220: the body of the [if]. *)
Definition update_block (params : Namespace) (logfile : Log) (ip_cachename : string)
    (current_ip : option string) : M unit :=
  dyndns_clean E (key params) (hostname params) "A" ;;
  Log_log logfile (hostname params ++ ": Removed A record(s).") ;;
  add_and_persist params ip_cachename current_ip ;;
  Log_log logfile (hostname params ++ ": Set A record to " ++ format_opt current_ip).

(** Lines 209 to 220. *)
Definition decide_and_update (params : Namespace) (logfile : Log)
    (ip_cachename : string) (cached_ip : option string)
    (current_ip : option (option string)) : M unit :=
  current ← load_local "current_ip" current_ip;
  if update_decision cached_ip current (hard params)
  then update_block params logfile ip_cachename current
  else mret ().

(** Lines 194 to 220: the branch taken without [--clean]. It ends without
    a [return]. *)
Definition update_branch (params : Namespace) (logfile : Log) (ip_cachename : string)
    : M (option Z) :=
  cached_ip ← read_cache params logfile ip_cachename;
  current_ip ← resolve_ip params logfile;
  decide_and_update params logfile ip_cachename cached_ip current_ip ;;
  mret None.

(** Lines 174 to 221: [main] from the parsed arguments on. *)
Definition main_body (params : Namespace) : M Z :=
  let do_log := if String.eqb (logfile params) "" then false else true in
  returned ← with_Log (Log_init E (logfile params) do_log) (fun logfile =>
    let ip_cachename := ip_cachename_of params in
    if clean params
    then clean_branch params logfile ip_cachename
    else update_branch params logfile ip_cachename);
  match returned with
  | Some code => mret code
  | None => mret 0
  end.

(** Lines 159 to 171: the parser and its five arguments. *)
Definition argparser : res (list string) :=
  Argparse.add_arguments
    [["key"]; ["hostname"]; ["-l"; "--log"]; ["-c"; "--clean"]; ["-h"; "--hard"]]
    Argparse.ArgumentParser.

(** [argparser.parse_args(args)]: a usage error exits with status 2. *)
Definition parse_args (args : list string) : M Namespace :=
  match command_line E args with
  | Some params => mret params
  | None => raise (SystemExit 2)
  end.

(** [main(args)]. *)
Definition main (args : list string) : M Z :=
  lift argparser ;;
  params ← parse_args args;
  main_body params.

(** [sys.exit(main(sys.argv[1:]))]: the status of the process. An
    exception that nobody catches ends it with status 1, [SystemExit] with
    its own code. *)
Definition exit_status (outcome : res Z) : Z :=
  match outcome with
  | Return code => code
  | Raise (SystemExit code) => code
  | Raise _ => 1
  end.

End Reconciler.


(** ** Vocabulary of the statements *)

Local Open Scope list_scope.

(** What [request_json], inside the [try] of the three operations, makes of
    the provider's answer. *)
Definition api_result (answer : http_outcome) : res pyval :=
  match answer with
  | TransportFailure s => Raise (ConnectionError s)
  | Interrupted cls os_error => Raise (LibraryError cls os_error)
  | Response (Some v) => Return v
  | Response None => Return PNone
  end.


(** The answer is a JSON object with a [result] member. *)
Definition answered (answer : http_outcome) : bool :=
  match answer with
  | Response (Some (PDict items)) => bool_decide (is_Some (Py.lookup_item "result" items))
  | _ => false
  end.





(** The exceptions that subscripting and iterating a value can raise. *)
Definition lookup_error (e : exn) : bool :=
  match e with
  | TypeError | KeyError _ => true
  | _ => false
  end.

(** The member [k] of a record object. *)
Definition field (x : pyval) (k : string) : pyval :=
  match x with
  | PDict items => default PNone (Py.lookup_item k items)
  | _ => PNone
  end.

(** A record object of the provider's list: it has the members the script
    reads. *)
Definition is_record (x : pyval) : bool :=
  match x with
  | PDict items =>
      forallb (fun k => bool_decide (is_Some (Py.lookup_item k items)))
        ["editable"; "record"; "type"; "value"]
  | _ => false
  end.

(** The records the Clean step is after: editable, of the host name, of
    the record kind. *)
Definition matches (record type : string) (x : pyval) : bool :=
  Py.eq_str (field x "editable") "1" && Py.eq_str (field x "record") record
  && Py.eq_str (field x "type") type.

Definition nonce_of (url : Url) : option pyval := Py.lookup_item "uuid" (snd url).

Definition cmd_of (url : Url) : option pyval := Py.lookup_item "cmd" (snd url).


Fixpoint last_char (s : string) : option ascii :=
  match s with
  | EmptyString => None
  | String c EmptyString => Some c
  | String _ rest => last_char rest
  end.



(** From [w] to [w'] only requests were made: the files are as they were
    and the requests of [w'] continue those of [w]. *)
Definition only_requests (w w' : World) : Prop :=
  files w' = files w /\ exists more, sent w' = sent w ++ more.

(** The same, with [first] as the first new request. *)
Definition requests_from (first : Url) (w w' : World) : Prop :=
  files w' = files w /\ exists more, sent w' = sent w ++ first :: more.

(** The request that removes the listed record [r]. *)
Definition removal (E : Env) (key record type : string) (r : pyval) : Url :=
  api_url (rem_params E key record type (field r "value")).

(** ** Concrete runs *)

Module Scenario.

Definition host : string := "host.example.com".

Definition cachename : string := "dyndns-host.example.com.txt".

Definition record_object (editable name type value : string) : pyval :=
  PDict [("record", PStr name); ("type", PStr type); ("value", PStr value);
         ("editable", PStr editable); ("comment", PStr "")].

(** An editable address record of the host, a provider-managed one, an
    address record of another host and a text record of the host. *)
Definition zone : list pyval :=
  [record_object "1" host "A" "203.0.113.5";
   record_object "0" host "A" "198.51.100.1";
   record_object "1" "other.example.com" "A" "203.0.113.7";
   record_object "1" host "TXT" "v=spf1 -all"].

(** A provider that lists [data] and answers every other command with
    [status]. *)
Definition provider_of (data : pyval) (status : string) (history : list Url)
    (url : Url) : http_outcome :=
  match cmd_of url with
  | Some (PStr "dns-list_records") =>
      Response (Some (PDict [("result", PStr "success"); ("data", data)]))
  | _ => Response (Some (PDict [("result", PStr status); ("data", PStr status)]))
  end.

(** The codec of these environments stores text as it is. *)
Definition env_of (answers : list Url -> Url -> http_outcome) (socket : socket_outcome)
    : Env :=
  {| provider := answers;
     random_uuid := fun n => ("random-" ++ String (ascii_of_nat (48 + n)) "")%string;
     name_uuid := fun namespace name => ("sha1(" ++ namespace ++ "," ++ name ++ ")")%string;
     route := socket;
     writable := fun _ => true;
     encode := Some;
     decode := Some;
     command_line := fun args =>
       match args with
       | [k; h] => Some {| key := k; hostname := h; logfile := ""; clean := false; hard := false |}
       | [k; h; "-c"] => Some {| key := k; hostname := h; logfile := ""; clean := true; hard := false |}
       | _ => None
       end |}.

(** The provider accepts everything; the machine's address is 203.0.113.9. *)
Definition healthy : Env := env_of (provider_of (PList zone) "success") (SockName "203.0.113.9").

(** A provider that remembers: once a remove request has been made, the
    editable address record of the host is gone from its listing. *)
Definition remembering (history : list Url) (url : Url) : http_outcome :=
  let removed :=
    List.existsb (fun u => match cmd_of u with
                           | Some (PStr "dns-remove_record") => true
                           | _ => false
                           end) history in
  provider_of (PList (if removed then tail zone else zone)) "success" history url.

Definition consistent : Env := env_of remembering (SockName "203.0.113.9").



(** The machine has its address but the provider cannot be reached. *)
Definition unreachable : Env :=
  env_of (fun _ _ => TransportFailure None) (SockName "203.0.113.9").

(** The network is down: no route, no connection. *)
Definition offline : Env :=
  env_of (fun _ _ => TransportFailure None) (SocketError (Some "Network is unreachable")).

Definition fresh : World := {| sent := []; draws := 0; files := ∅ |}.

(** The cache holds the address of an earlier run. *)
Definition cached (ip : string) : World :=
  {| sent := []; draws := 0; files := {[ cachename := (ip ++ String "010" "")%string ]} |}.

Definition update_args : Namespace :=
  {| key := "KEY"; hostname := host; logfile := ""; clean := false; hard := false |}.

Definition clean_args : Namespace :=
  {| key := "KEY"; hostname := host; logfile := ""; clean := true; hard := false |}.

Definition no_log : Log := {| do_log := false; log_path := "" |}.

End Scenario.

(** ** The requests of the provider's interface, written out *)

(** The requests as the provider's HTTP interface wants them, parameter by
    parameter: what the statements below compare the requests of the
    script with. *)
Definition list_request (key nonce : string) : Url :=
  ("https://api.dreamhost.com/?",
   [("key", PStr key); ("uuid", PStr nonce); ("cmd", PStr "dns-list_records");
    ("format", PStr "json")]).

Definition remove_request (key nonce record type : string) (value : pyval) : Url :=
  ("https://api.dreamhost.com/?",
   [("key", PStr key); ("uuid", PStr nonce); ("cmd", PStr "dns-remove_record");
    ("record", PStr record); ("type", PStr type); ("value", value);
    ("format", PStr "json")]).

Definition add_request (key nonce record type : string) (value : pyval) : Url :=
  ("https://api.dreamhost.com/?",
   [("key", PStr key); ("uuid", PStr nonce); ("cmd", PStr "dns-add_record");
    ("record", PStr record); ("type", PStr type); ("value", value);
    ("format", PStr "json")]).


(** The nonce of the add and remove requests for the host name [record]. *)
Definition record_nonce (E : Env) (record : string) : string :=
  name_uuid E "6ba7b811-9dad-11d1-80b4-00c04fd430c8" record.


(** The exceptions that leave an operation of the API client. *)
Definition api_exception (e : exn) : bool :=
  match e with
  | ConnectionError _ | TypeError | KeyError _ | LibraryError _ _ => true
  | _ => false
  end.

(** ** Vocabulary of the further statements *)

(** What the [with] statement of [main] passes to [Log]. *)
Definition do_log_of (params : Namespace) : bool :=
  if String.eqb (logfile params) "" then false else true.

(** A filter of [dyndns_list] on one record: an omitted filter lets every
    record through. *)
Definition opt_is (f : string) (wanted : option string) (x : pyval) : bool :=
  match wanted with
  | Some s => Py.eq_str (field x f) s
  | None => true
  end.

Definition passes (editable record type : option string) (x : pyval) : bool :=
  opt_is "editable" editable x && opt_is "record" record x && opt_is "type" type x.

Fixpoint all_space (s : string) : bool :=
  match s with
  | EmptyString => true
  | String c rest => Py.isspace c && all_space rest
  end.

Definition ends_with_space (s : string) : bool :=
  match last_char s with
  | Some c => Py.isspace c
  | None => false
  end.

(** A request of the Clean step made with the API key [key]: a list or a
    remove request to the provider's address. *)
Definition clean_request (key : string) (url : Url) : bool :=
  String.eqb (fst url) "https://api.dreamhost.com/?"
  && match Py.lookup_item "key" (snd url) with
     | Some v => Py.eq_str v key
     | None => false
     end
  && match cmd_of url with
     | Some (PStr c) => String.eqb c "dns-list_records" || String.eqb c "dns-remove_record"
     | _ => false
     end.

(** What the Clean step makes of a run of [main]: the log call that follows
    it is the end of the run. *)
Definition after_clean (outcome : res unit * World) : res Z * World :=
  match outcome with
  | (Return _, w) => (Raise TypeError, w)
  | (Raise e, w) => (Raise e, w)
  end.

Module Cases.

(** Three editable address records of the host. *)
Definition triple : list pyval :=
  [Scenario.record_object "1" Scenario.host "A" "203.0.113.5";
   Scenario.record_object "1" Scenario.host "A" "203.0.113.6";
   Scenario.record_object "1" Scenario.host "A" "203.0.113.8"].

(** The provider lists [triple]; the removal of the second record meets a
    transport failure, the other requests are answered. *)
Definition flaky_provider (history : list Url) (url : Url) : http_outcome :=
  match cmd_of url, Py.lookup_item "value" (snd url) with
  | Some (PStr "dns-remove_record"), Some (PStr "203.0.113.6") =>
      TransportFailure (Some "Connection reset by peer")
  | _, _ => Scenario.provider_of (PList triple) "success" history url
  end.

Definition flaky : Env := Scenario.env_of flaky_provider (SockName "203.0.113.9").

(** A listing whose second entry has no [editable] member. *)
Definition damaged_zone : list pyval :=
  [Scenario.record_object "1" Scenario.host "A" "203.0.113.5";
   PDict [("record", PStr Scenario.host); ("type", PStr "A"); ("value", PStr "203.0.113.6")];
   Scenario.record_object "1" Scenario.host "A" "203.0.113.8"].

Definition damaged : Env :=
  Scenario.env_of (Scenario.provider_of (PList damaged_zone) "success")
    (SockName "203.0.113.9").

(** The log file cannot be opened. *)
Definition read_only : Env :=
  {| provider := provider Scenario.healthy;
     random_uuid := random_uuid Scenario.healthy;
     name_uuid := name_uuid Scenario.healthy;
     route := route Scenario.healthy;
     writable := fun _ => false;
     encode := encode Scenario.healthy;
     decode := decode Scenario.healthy;
     command_line := command_line Scenario.healthy |}.

(** The provider answers every request, and turns every one down. *)
Definition refusing : Env :=
  Scenario.env_of
    (fun _ _ => Response (Some (PDict [("result", PStr "error");
                                       ("data", PStr "no_such_zone")])))
    (SockName "203.0.113.9").

Definition forced_args : Namespace :=
  {| key := "KEY"; hostname := Scenario.host; logfile := "";
     clean := false; hard := true |}.

Definition logging_args : Namespace :=
  {| key := "KEY"; hostname := Scenario.host; logfile := "dyndns.log";
     clean := false; hard := false |}.

(** A cache file written by hand, with a Windows line ending. *)
Definition hand_written : World :=
  {| sent := []; draws := 0;
     files := {[ Scenario.cachename :=
                   ("203.0.113.9" ++ String "013" (String "010" ""))%string ]} |}.

End Cases.

(** * Properties *)

(** ** The operations, request by request *)

Section Operations.

Variable E : Env.

(** Every call of [Log.log] in the script fails before the method body is
    entered, and changes nothing. *)
Lemma Log_log_raises (l : Log) (msg : string) (w : World) :
  Log_log l msg w = (Raise TypeError, w).
Proof. reflexivity. Qed.

Lemma request_api_spec (params : list (string * pyval)) (w : World) :
  request_api E params w =
    (api_result (provider E (sent w) (api_url params)), sending (api_url params) w).
Proof.
  unfold request_api, request_json, try_except, try_except_else, urlopen,
    mbind, M_bind.
  destruct (provider E (sent w) (api_url params)) as [s | cls os | [v | ]]; reflexivity.
Qed.

Lemma status_check (params : list (string * pyval)) (w : World) :
  (result ← request_api E params; lift (is_success result)) w =
    (api_result (provider E (sent w) (api_url params)) ≫= is_success,
     sending (api_url params) w).
Proof.
  unfold mbind at 1, M_bind. rewrite request_api_spec.
  destruct (api_result _) as [result | e]; reflexivity.
Qed.

Lemma dyndns_add_spec (key record type : string) (value : pyval) (comment : string)
    (w : World) :
  dyndns_add E key record type value comment w =
    (api_result (provider E (sent w) (api_url (add_params E key record type value comment)))
       ≫= is_success,
     sending (api_url (add_params E key record type value comment)) w).
Proof. apply status_check. Qed.

Lemma dyndns_rem_spec (key record type : string) (value : pyval) (w : World) :
  dyndns_rem E key record type value w =
    (api_result (provider E (sent w) (api_url (rem_params E key record type value)))
       ≫= is_success,
     sending (api_url (rem_params E key record type value)) w).
Proof. apply status_check. Qed.

Lemma dyndns_list_spec (key : string) (editable record type : option string)
    (w : World) :
  let url := api_url (list_params key (random_uuid E (draws w))) in
  dyndns_list E key editable record type w =
    (api_result (provider E (sent w) url) ≫= select_records editable record type,
     sending url (drawn w)).
Proof.
  cbv zeta. unfold dyndns_list, uuid4. unfold mbind at 1, M_bind.
  unfold mbind at 1, M_bind. rewrite request_api_spec. cbn [sent].
  destruct (api_result _) as [result | e]; reflexivity.
Qed.

End Operations.

(** ** Nonces *)

Section Nonces.

Variable E : Env.

Lemma add_params_nonce (key record type : string) (value : pyval) (comment : string) :
  nonce_of (api_url (add_params E key record type value comment)) =
    Some (PStr (name_uuid E NAMESPACE_URL record)).
Proof. unfold add_params. destruct (String.eqb comment ""); reflexivity. Qed.

(** C9. The nonce that [dyndns_add] and [dyndns_rem] send is the name UUID
    of the host name in the URL namespace: it does not depend on the key,
    the type, the value, the comment, or the state of the world, so any
    two add or remove requests for one host name carry the same nonce.
    [dyndns_list] sends the next value of the random source, and every
    call consumes one value of it, whereas add and remove consume none. *)
Theorem nonce_policy :
  (forall key record type value comment w,
      sent (snd (dyndns_add E key record type value comment w)) =
        sent w ++ [api_url (add_params E key record type value comment)]
      /\ nonce_of (api_url (add_params E key record type value comment)) =
           Some (PStr (name_uuid E NAMESPACE_URL record))
      /\ draws (snd (dyndns_add E key record type value comment w)) = draws w)
  /\ (forall key record type value w,
      sent (snd (dyndns_rem E key record type value w)) =
        sent w ++ [api_url (rem_params E key record type value)]
      /\ nonce_of (api_url (rem_params E key record type value)) =
           Some (PStr (name_uuid E NAMESPACE_URL record))
      /\ draws (snd (dyndns_rem E key record type value w)) = draws w)
  /\ (forall key key' record type type' value value' comment comment',
      nonce_of (api_url (add_params E key record type value comment)) =
        nonce_of (api_url (add_params E key' record type' value' comment'))
      /\ nonce_of (api_url (rem_params E key record type value)) =
           nonce_of (api_url (rem_params E key' record type' value'))
      /\ nonce_of (api_url (add_params E key record type value comment)) =
           nonce_of (api_url (rem_params E key' record type' value')))
  /\ (forall key editable record type w,
      sent (snd (dyndns_list E key editable record type w)) =
        sent w ++ [api_url (list_params key (random_uuid E (draws w)))]
      /\ nonce_of (api_url (list_params key (random_uuid E (draws w)))) =
           Some (PStr (random_uuid E (draws w)))
      /\ draws (snd (dyndns_list E key editable record type w)) = S (draws w)).
Proof.
  repeat split.
  - rewrite dyndns_add_spec. reflexivity.
  - apply add_params_nonce.
  - rewrite dyndns_add_spec. reflexivity.
  - rewrite dyndns_rem_spec. reflexivity.
  - rewrite dyndns_rem_spec. reflexivity.
  - by rewrite !add_params_nonce.
  - by rewrite add_params_nonce.
  - rewrite dyndns_list_spec. reflexivity.
  - rewrite dyndns_list_spec. reflexivity.
Qed.

End Nonces.

(** ** The Clean step *)

Section Clean.

Variable E : Env.

Lemma bind_run {A B} (m : M A) (k : A -> M B) (w : World) :
  (m ≫= k) w =
    match m w with
    | (Return a, w') => k a w'
    | (Raise e, w') => (Raise e, w')
    end.
Proof. reflexivity. Qed.

Lemma bind_lift {A B} (r : res A) (k : A -> M B) (w : World) :
  (lift r ≫= k) w = match r with Return a => k a w | Raise e => (Raise e, w) end.
Proof. destruct r; reflexivity. Qed.

Lemma only_requests_refl (w : World) : only_requests w w.
Proof. split; [ reflexivity | exists []; by rewrite app_nil_r ]. Qed.

Lemma only_requests_sending (url : Url) (w w' : World) :
  only_requests (sending url w) w' -> requests_from url w w'.
Proof.
  intros [Hfiles [more Hsent]]. split; [ exact Hfiles | ].
  exists more. rewrite Hsent. cbn [sending sent]. by rewrite <- app_assoc.
Qed.

Lemma requests_from_only (url : Url) (w w' : World) :
  requests_from url w w' -> only_requests w w'.
Proof. intros [Hfiles [more Hsent]]. split; [ exact Hfiles | eauto ]. Qed.

Lemma only_requests_trans (w1 w2 w3 : World) :
  only_requests w1 w2 -> only_requests w2 w3 -> only_requests w1 w3.
Proof.
  intros [Hf1 [m1 Hs1]] [Hf2 [m2 Hs2]]. split; [ congruence | ].
  exists (m1 ++ m2). rewrite Hs2, Hs1. by rewrite <- app_assoc.
Qed.

(** One turn of the loop: no request when the listed value has no
    [value] member, one remove request otherwise. *)
Lemma remove_listed_spec (key record type : string) (r : pyval) (w : World) :
  remove_listed E key record type r w =
    match Py.getitem r "value" with
    | Raise e => (Raise e, w)
    | Return value =>
        (match api_result (provider E (sent w)
                   (api_url (rem_params E key record type value))) ≫= is_success with
         | Return _ => Return ()
         | Raise e => Raise e
         end,
         sending (api_url (rem_params E key record type value)) w)
    end.
Proof.
  unfold remove_listed. rewrite bind_lift.
  destruct (Py.getitem r "value") as [value | e]; [ | reflexivity ].
  unfold mbind at 1, M_bind. rewrite dyndns_rem_spec.
  destruct (api_result _ ≫= is_success); reflexivity.
Qed.

Lemma remove_loop_only_requests (key record type : string) (rs : list pyval) :
  forall w, only_requests w (snd (for_each rs (remove_listed E key record type) w)).
Proof.
  induction rs as [ | r rs IH]; intros w; cbn [for_each].
  - apply only_requests_refl.
  - unfold mbind, M_bind. rewrite remove_listed_spec.
    destruct (Py.getitem r "value") as [value | e]; [ | apply only_requests_refl ].
    destruct (api_result _ ≫= is_success) as [ok | e].
    + eapply only_requests_trans; [ | apply IH ].
      apply requests_from_only with (url := api_url (rem_params E key record type value)).
      apply only_requests_sending, only_requests_refl.
    + apply requests_from_only with (url := api_url (rem_params E key record type value)).
      apply only_requests_sending, only_requests_refl.
Qed.

(** Whatever happens in it, the Clean step starts with the list request
    and leaves the files alone. *)
Lemma dyndns_clean_requests (key record type : string) (w : World) :
  requests_from (api_url (list_params key (random_uuid E (draws w)))) w
    (snd (dyndns_clean E key record type w)).
Proof.
  unfold dyndns_clean. unfold mbind at 1, M_bind. rewrite dyndns_list_spec.
  set (url := api_url (list_params key (random_uuid E (draws w)))).
  assert (Hhere : requests_from url w (sending url (drawn w))).
  { split; [ reflexivity | exists []; reflexivity ]. }
  destruct (api_result _ ≫= select_records _ _ _) as [results | e]; [ | exact Hhere ].
  destruct (Py.is_None results); [ exact Hhere | ].
  rewrite bind_lift. destruct (Py.iter results) as [rs | e]; [ | exact Hhere ].
  apply only_requests_sending.
  pose proof (remove_loop_only_requests key record type rs (sending url (drawn w))) as H.
  destruct H as [Hfiles [more Hsent]]. split; [ exact Hfiles | ].
  exists more. exact Hsent.
Qed.

Lemma is_record_getitem (x : pyval) (k : string) :
  is_record x = true -> k ∈ ["editable"; "record"; "type"; "value"] ->
  Py.getitem x k = Return (field x k).
Proof.
  destruct x as [ | | | | | items]; try discriminate. cbn [is_record].
  rewrite forallb_forall. intros Hall Hk.
  apply list_elem_of_In, Hall, bool_decide_eq_true in Hk as [v Hv].
  cbn [Py.getitem field]. by rewrite Hv.
Qed.

Lemma field_is_record (f wanted : string) (x : pyval) :
  is_record x = true -> f ∈ ["editable"; "record"; "type"; "value"] ->
  field_is f wanted x = Return (Py.eq_str (field x f) wanted).
Proof. intros Hx Hf. unfold field_is. by rewrite (is_record_getitem x f Hx Hf). Qed.

Lemma filter_list_field_is (f wanted : string) (recs : list pyval) :
  f ∈ ["editable"; "record"; "type"; "value"] ->
  forallb is_record recs = true ->
  filter_list (field_is f wanted) recs =
    Return (List.filter (fun x => Py.eq_str (field x f) wanted) recs).
Proof.
  intros Hf. induction recs as [ | x recs IH]; [ reflexivity | ].
  cbn [forallb]. intros [Hx Hrecs]%andb_prop. cbn [filter_list List.filter].
  rewrite (field_is_record f wanted x Hx Hf). cbn [mbind res_bind].
  rewrite (IH Hrecs). reflexivity.
Qed.

Lemma forallb_filter {A} (p q : A -> bool) (l : list A) :
  forallb p l = true -> forallb p (List.filter q l) = true.
Proof.
  rewrite !forallb_forall. intros Hall x [Hx _]%filter_In. by apply Hall.
Qed.

Lemma filter_filter {A} (p q : A -> bool) (l : list A) :
  List.filter q (List.filter p l) = List.filter (fun x => p x && q x) l.
Proof.
  induction l as [ | x l IH]; [ reflexivity | ]. cbn [List.filter].
  destruct (p x); cbn [List.filter andb]; [ destruct (q x) | ]; by rewrite IH.
Qed.

Lemma filter_by_records (f wanted : string) (recs : list pyval) :
  f ∈ ["editable"; "record"; "type"; "value"] ->
  forallb is_record recs = true ->
  filter_by f (Some wanted) (PList recs) =
    Return (PList (List.filter (fun x => Py.eq_str (field x f) wanted) recs)).
Proof.
  intros Hf Hrecs. unfold filter_by, py_filter. cbn [Py.iter mbind res_bind].
  by rewrite (filter_list_field_is f wanted recs Hf Hrecs).
Qed.

(** The three filters of [dyndns_clean] on a successful listing of
    well-formed records. *)
Lemma select_records_matching (record type : string)
    (items : list (string * pyval)) (recs : list pyval) :
  Py.lookup_item "result" items = Some (PStr "success") ->
  Py.lookup_item "data" items = Some (PList recs) ->
  forallb is_record recs = true ->
  select_records (Some "1") (Some record) (Some type) (PDict items) =
    Return (PList (List.filter (matches record type) recs)).
Proof.
  intros Hresult Hdata Hrecs. unfold select_records. cbn [Py.getitem].
  rewrite Hresult, Hdata. cbn [mbind res_bind].
  change (Py.eq_str (PStr "success") "success") with true. cbv iota.
  rewrite filter_by_records by (done || set_solver). cbn [mbind res_bind].
  rewrite filter_by_records by (by apply forallb_filter || set_solver).
  cbn [mbind res_bind].
  rewrite filter_by_records by (by do 2 apply forallb_filter || set_solver).
  cbn [mbind res_bind]. rewrite !filter_filter. unfold mret, res_ret.
  do 2 f_equal. apply filter_ext. intros x. unfold matches. by rewrite andb_assoc.
Qed.

Lemma answered_status (answer : http_outcome) :
  answered answer = true -> exists ok, api_result answer ≫= is_success = Return ok.
Proof.
  destruct answer as [ | | [[ | | | | | items] | ]]; try discriminate. cbn [answered].
  intros [status Hstatus]%bool_decide_eq_true.
  cbn [api_result mbind res_bind]. unfold is_success. cbn [Py.getitem].
  rewrite Hstatus. cbn [mbind res_bind]. destruct (Py.eq_str status "success"); eauto.
Qed.

(** When the provider answers every remove request, the loop makes one
    request for each listed record, in order. *)
Lemma remove_loop_all (key record type : string) (rs : list pyval) :
  (forall history value,
      answered (provider E history (api_url (rem_params E key record type value))) = true) ->
  forallb is_record rs = true ->
  forall w,
    for_each rs (remove_listed E key record type) w =
      (Return (), {| sent := sent w ++ map (removal E key record type) rs;
                     draws := draws w; files := files w |}).
Proof.
  intros Hanswered. induction rs as [ | r rs IH]; intros Hrs w.
  - cbn [for_each map]. rewrite app_nil_r. by destruct w.
  - cbn [forallb] in Hrs. apply andb_prop in Hrs as [Hr Hrs].
    cbn [for_each]. unfold mbind, M_bind. rewrite remove_listed_spec.
    rewrite (is_record_getitem r "value" Hr) by set_solver.
    destruct (answered_status _ (Hanswered (sent w) (field r "value"))) as [ok ->].
    rewrite (IH Hrs). cbn [sending sent draws files map]. unfold removal.
    by rewrite <- app_assoc.
Qed.


Lemma dyndns_clean_spec (key record type : string) (items : list (string * pyval))
    (recs : list pyval) (w : World) :
  provider E (sent w) (api_url (list_params key (random_uuid E (draws w)))) =
    Response (Some (PDict items)) ->
  Py.lookup_item "result" items = Some (PStr "success") ->
  Py.lookup_item "data" items = Some (PList recs) ->
  forallb is_record recs = true ->
  dyndns_clean E key record type w =
    for_each (List.filter (matches record type) recs) (remove_listed E key record type)
      (sending (api_url (list_params key (random_uuid E (draws w)))) (drawn w)).
Proof.
  intros Hlist Hresult Hdata Hrecs.
  unfold dyndns_clean. unfold mbind at 1, M_bind. rewrite dyndns_list_spec, Hlist.
  cbn [api_result mbind res_bind].
  rewrite (select_records_matching record type items recs Hresult Hdata Hrecs).
  cbn [Py.is_None]. rewrite bind_lift. reflexivity.
Qed.


End Clean.



(** ** The Update Decision *)

Section Decision.

Variable E : Env.

Lemma update_decision_iff (cached_ip current_ip : option string) (hard : bool) :
  update_decision cached_ip current_ip hard = true <->
  current_ip <> None /\ (cached_ip = None \/ cached_ip <> current_ip \/ hard = true).
Proof.
  unfold update_decision.
  rewrite andb_true_iff, !orb_true_iff, !negb_true_iff, !bool_decide_eq_false,
    bool_decide_eq_true.
  split.
  - intros [Hknown [[Hnone | Hdiffers] | Hhard]]; auto.
  - intros [Hknown [Hnone | [Hdiffers | Hhard]]]; auto.
Qed.

(** The test alone decides whether the body of the [if] is entered. *)
Lemma decide_and_update_spec (params : Namespace) (logfile : Log)
    (ip_cachename : string) (cached_ip current_ip : option string) (w : World) :
  decide_and_update E params logfile ip_cachename cached_ip (Some current_ip) w =
    if update_decision cached_ip current_ip (hard params)
    then update_block E params logfile ip_cachename current_ip w
    else (Return (), w).
Proof.
  unfold decide_and_update, load_local. rewrite bind_run.
  unfold mret at 1, M_ret at 1.
  by destruct (update_decision cached_ip current_ip (hard params)).
Qed.

(** A local variable that was never assigned cannot be tested: with
    [current_ip] unbound the decision is not reached. *)
Lemma decide_unbound (params : Namespace) (logfile : Log) (ip_cachename : string)
    (cached_ip : option string) (w : World) :
  decide_and_update E params logfile ip_cachename cached_ip None w =
    (Raise (UnboundLocalError "current_ip"), w).
Proof. reflexivity. Qed.

End Decision.

(** ** The cache file *)

Section Cache.

Variable E : Env.


Lemma rstrip_fixed (s : string) :
  (forall c, last_char s = Some c -> Py.isspace c = false) -> Py.rstrip s = s.
Proof.
  induction s as [ | c s IH]; [ reflexivity | ].
  intros Hlast. cbn [Py.rstrip]. destruct s as [ | c' s].
  - cbn [Py.rstrip]. by rewrite (Hlast c).
  - rewrite IH; [ reflexivity | ]. intros d Hd. by apply Hlast.
Qed.






(** What reading the cache makes of a file that is there. *)
Lemma read_cache_present (params : Namespace) (logfile : Log)
    (ip_cachename content : string) (w : World) :
  files w !! ip_cachename = Some content ->
  read_cache E params logfile ip_cachename w =
    match decode E content with
    | Some text => (Return (Some (Py.rstrip (Py.universal_newlines text))), w)
    | None => (Raise UnicodeDecodeError, w)
    end.
Proof.
  intros Hfile. unfold read_cache, try_except_else, open_text. rewrite Hfile.
  unfold file_read. rewrite bind_run. by destruct (decode E content).
Qed.


End Cache.



(** ** Failures of the API client *)

Section Failures.

Variable E : Env.


Lemma getitem_raises (v : pyval) (k : string) (e : exn) :
  Py.getitem v k = Raise e -> lookup_error e = true.
Proof.
  destruct v as [ | | | | | items]; cbn [Py.getitem]; try (by intros [= <-]).
  destruct (Py.lookup_item k items); [ discriminate | by intros [= <-] ].
Qed.

Lemma is_success_raises (v : pyval) (e : exn) :
  is_success v = Raise e -> lookup_error e = true.
Proof.
  unfold is_success. destruct (Py.getitem v "result") as [status | e'] eqn:Hget.
  - cbn [mbind res_bind]. by destruct (Py.eq_str status "success").
  - cbn [mbind res_bind]. intros [= <-]. by apply getitem_raises in Hget.
Qed.

Lemma filter_list_raises (f : pyval -> res bool) (xs : list pyval) (e : exn) :
  (forall x e', f x = Raise e' -> lookup_error e' = true) ->
  filter_list f xs = Raise e -> lookup_error e = true.
Proof.
  intros Hf. induction xs as [ | x xs IH]; [ discriminate | ].
  cbn [filter_list]. destruct (f x) as [b | e'] eqn:Hfx; cbn [mbind res_bind].
  - destruct (filter_list f xs) as [kept | e'']; cbn [mbind res_bind].
    + discriminate.
    + intros [= <-]. by apply IH.
  - intros [= <-]. by apply Hf in Hfx.
Qed.

Lemma field_is_raises (f wanted : string) (x : pyval) (e : exn) :
  field_is f wanted x = Raise e -> lookup_error e = true.
Proof.
  unfold field_is.
  destruct (Py.getitem x f) as [v | e'] eqn:Hget; cbn [mbind res_bind];
    [ discriminate | ].
  intros [= <-]. by apply getitem_raises in Hget.
Qed.

Lemma filter_by_raises (f : string) (wanted : option string) (r : pyval) (e : exn) :
  filter_by f wanted r = Raise e -> lookup_error e = true.
Proof.
  destruct wanted as [s | ]; [ | discriminate ]. unfold filter_by, py_filter.
  destruct (Py.iter r) as [xs | e'] eqn:Hiter; cbn [mbind res_bind].
  - destruct (filter_list (field_is f s) xs) as [kept | e''] eqn:Hfilter;
      cbn [mbind res_bind]; [ discriminate | ].
    intros [= <-]. apply (filter_list_raises _ _ _ (field_is_raises f s) Hfilter).
  - intros [= <-]. destruct r; try discriminate; by injection Hiter as <-.
Qed.

Lemma select_records_raises (editable record type : option string) (v : pyval)
    (e : exn) :
  select_records editable record type v = Raise e -> lookup_error e = true.
Proof.
  unfold select_records.
  destruct (Py.getitem v "result") as [status | e0] eqn:H0; cbn [mbind res_bind];
    [ | intros [= <-]; by apply getitem_raises in H0 ].
  destruct (Py.eq_str status "success"); [ | discriminate ].
  destruct (Py.getitem v "data") as [r | e1] eqn:H1; cbn [mbind res_bind];
    [ | intros [= <-]; by apply getitem_raises in H1 ].
  destruct (filter_by "editable" editable r) as [r1 | e2] eqn:H2; cbn [mbind res_bind];
    [ | intros [= <-]; by apply filter_by_raises in H2 ].
  destruct (filter_by "record" record r1) as [r2 | e3] eqn:H3; cbn [mbind res_bind];
    [ | intros [= <-]; by apply filter_by_raises in H3 ].
  destruct (filter_by "type" type r2) as [r3 | e4] eqn:H4; cbn [mbind res_bind];
    [ discriminate | intros [= <-]; by apply filter_by_raises in H4 ].
Qed.





End Failures.


(** ** Add and Persist *)

Section Persist.

Variable E : Env.

Lemma add_and_persist_spec (params : Namespace) (ip_cachename ip : string) (w : World) :
  add_and_persist E params ip_cachename (Some ip) w =
    match api_result (provider E (sent w)
            (api_url (add_params E (key params) (hostname params) "A" (PStr ip) "")))
          ≫= is_success with
    | Return _ =>
        write_cache E ip_cachename (Some ip)
          (sending (api_url (add_params E (key params) (hostname params) "A" (PStr ip) "")) w)
    | Raise e =>
        (Raise e,
         sending (api_url (add_params E (key params) (hostname params) "A" (PStr ip) "")) w)
    end.
Proof.
  unfold add_and_persist. unfold mbind at 1, M_bind. cbn [py_of].
  rewrite dyndns_add_spec. by destruct (api_result _ ≫= is_success).
Qed.

End Persist.

(** ** Whole runs *)

Section Runs.

Variable E : Env.

(** Registering [-h] for [--hard] collides with the help option every
    parser is born with: [main] stops while it builds its parser. *)
Lemma main_stops_at_parser (args : list string) (w : World) :
  main E args w = (Raise (ArgumentError "-h"), w).
Proof. reflexivity. Qed.

Lemma Log_init_sent (name : string) (flag : bool) (w : World) :
  sent (snd (Log_init E name flag w)) = sent w.
Proof.
  unfold Log_init, open_append. destruct flag; [ | reflexivity ].
  unfold mbind, M_bind. by destruct (writable E name).
Qed.

(** The update never gets past the log call that follows the Clean step. *)
Lemma update_block_raises (params : Namespace) (logfile : Log) (ip_cachename : string)
    (current_ip : option string) (w : World) :
  (exists e, fst (update_block E params logfile ip_cachename current_ip w) = Raise e)
  /\ files (snd (update_block E params logfile ip_cachename current_ip w)) = files w.
Proof.
  pose proof (dyndns_clean_requests E (key params) (hostname params) "A" w) as [Hfiles _].
  unfold update_block. rewrite bind_run.
  destruct (dyndns_clean E (key params) (hostname params) "A" w) as [[[] | e] w'];
    cbn [fst snd] in *; [ | eauto ].
  rewrite bind_run, Log_log_raises. cbn [fst snd]. eauto.
Qed.

(** Nor does the clean mode. *)
Lemma clean_branch_raises (params : Namespace) (logfile : Log) (ip_cachename : string)
    (w : World) :
  (exists e, fst (clean_branch E params logfile ip_cachename w) = Raise e)
  /\ files (snd (clean_branch E params logfile ip_cachename w)) = files w.
Proof.
  pose proof (dyndns_clean_requests E (key params) (hostname params) "A" w) as [Hfiles _].
  unfold clean_branch. rewrite bind_run.
  destruct (dyndns_clean E (key params) (hostname params) "A" w) as [[[] | e] w'];
    cbn [fst snd] in *; [ | eauto ].
  rewrite bind_run, Log_log_raises. cbn [fst snd]. eauto.
Qed.

(** Reading the cache stops at the warning it tries to log when the file
    cannot be opened, raises [UnicodeDecodeError] when the file is not
    valid in the encoding, and otherwise yields the text of the file, its
    line endings translated and its trailing whitespace dropped. *)
Lemma read_cache_spec (params : Namespace) (logfile : Log) (ip_cachename : string)
    (w : World) :
  read_cache E params logfile ip_cachename w =
    match files w !! ip_cachename with
    | Some content =>
        match decode E content with
        | Some text => (Return (Some (Py.rstrip (Py.universal_newlines text))), w)
        | None => (Raise UnicodeDecodeError, w)
        end
    | None => (Raise TypeError, w)
    end.
Proof.
  destruct (files w !! ip_cachename) as [content | ] eqn:Hfile.
  - by apply read_cache_present.
  - unfold read_cache, try_except_else, open_text. by rewrite Hfile.
Qed.

(** Resolving the address either binds [current_ip] or stops at the
    failure it tries to log. *)
Lemma resolve_ip_spec (params : Namespace) (logfile : Log) (w : World) :
  resolve_ip E params logfile w =
    match route E with
    | SockName ip => (Return (Some (Some ip)), w)
    | SocketError _ => (Raise TypeError, w)
    end.
Proof.
  unfold resolve_ip, try_except, try_except_else, get_current_ip, socket_connect.
  rewrite bind_run. by destruct (route E).
Qed.

Lemma Log_init_spec (name : string) (flag : bool) (w : World) :
  Log_init E name flag w =
    if flag
    then if writable E name
         then (Return {| do_log := flag; log_path := name |},
               {| sent := sent w; draws := draws w;
                  files := <[name := default "" (files w !! name)]> (files w) |})
         else (Raise (OSError (Some "Permission denied")), w)
    else (Return {| do_log := flag; log_path := name |}, w).
Proof.
  unfold Log_init. destruct flag; [ | reflexivity ].
  rewrite bind_run. unfold open_append. by destruct (writable E name).
Qed.

Lemma clean_branch_spec (params : Namespace) (logfile : Log) (ip_cachename : string)
    (w : World) :
  clean_branch E params logfile ip_cachename w =
    match dyndns_clean E (key params) (hostname params) "A" w with
    | (Return _, w') => (Raise TypeError, w')
    | (Raise e, w') => (Raise e, w')
    end.
Proof.
  unfold clean_branch. rewrite bind_run.
  destruct (dyndns_clean E (key params) (hostname params) "A" w) as [[[] | e] w'];
    [ | reflexivity ].
  by rewrite bind_run, Log_log_raises.
Qed.

Lemma update_block_spec (params : Namespace) (logfile : Log) (ip_cachename : string)
    (current_ip : option string) (w : World) :
  update_block E params logfile ip_cachename current_ip w =
    match dyndns_clean E (key params) (hostname params) "A" w with
    | (Return _, w') => (Raise TypeError, w')
    | (Raise e, w') => (Raise e, w')
    end.
Proof.
  unfold update_block. rewrite bind_run.
  destruct (dyndns_clean E (key params) (hostname params) "A" w) as [[[] | e] w'];
    [ | reflexivity ].
  by rewrite bind_run, Log_log_raises.
Qed.

(** Every run of lines 174 to 221 is one of seven. *)
Lemma main_body_spec (params : Namespace) (w : World) :
  main_body E params w =
    match Log_init E (logfile params) (do_log_of params) w with
    | (Raise e, w0) => (Raise e, w0)
    | (Return _, w0) =>
        if clean params
        then after_clean (dyndns_clean E (key params) (hostname params) "A" w0)
        else
          match files w0 !! ip_cachename_of params with
          | None => (Raise TypeError, w0)
          | Some content =>
              match decode E content with
              | None => (Raise UnicodeDecodeError, w0)
              | Some text =>
                  match route E with
                  | SocketError _ => (Raise TypeError, w0)
                  | SockName ip =>
                      if update_decision (Some (Py.rstrip (Py.universal_newlines text)))
                           (Some ip) (hard params)
                      then after_clean
                             (dyndns_clean E (key params) (hostname params) "A" w0)
                      else (Return 0, w0)
                  end
              end
          end
    end.
Proof.
  unfold main_body, with_Log, do_log_of, after_clean. rewrite bind_run, bind_run.
  destruct (Log_init E (logfile params) _ w) as [[l | e] w0]; [ | reflexivity ].
  destruct (clean params).
  - rewrite clean_branch_spec.
    by destruct (dyndns_clean E (key params) (hostname params) "A" w0) as [[[] | e] w1].
  - unfold update_branch. rewrite bind_run, read_cache_spec.
    destruct (files w0 !! ip_cachename_of params) as [content | ]; [ | reflexivity ].
    destruct (decode E content) as [text | ]; [ | reflexivity ].
    rewrite bind_run, resolve_ip_spec.
    destruct (route E) as [ip | failure]; [ | reflexivity ].
    rewrite bind_run. unfold decide_and_update. rewrite bind_run. cbn [load_local].
    unfold mret at 1, M_ret at 1.
    destruct (update_decision (Some (Py.rstrip (Py.universal_newlines text))) (Some ip)
                (hard params)); [ | reflexivity ].
    rewrite update_block_spec.
    by destruct (dyndns_clean E (key params) (hostname params) "A" w0) as [[[] | e] w1].
Qed.

Lemma after_clean_raises (outcome : res unit * World) (code : Z) (w : World) :
  after_clean outcome <> (Return code, w).
Proof. by destruct outcome as [[[] | e] w']. Qed.

(** A run from line 174 on that returns has made no request: it can only
    be the run that finds the cached address current. Every run that
    reaches the provider ends in an exception. *)
Lemma main_body_return (params : Namespace) (w : World) (code : Z) :
  fst (main_body E params w) = Return code ->
  code = 0 /\ clean params = false /\ sent (snd (main_body E params w)) = sent w.
Proof.
  destruct (main_body E params w) as [outcome w'] eqn:Hrun. cbn [fst snd].
  intros ->. revert Hrun. rewrite main_body_spec.
  pose proof (Log_init_sent (logfile params) (do_log_of params) w) as Hinit.
  destruct (Log_init E (logfile params) _ w) as [[l | e] w0]; [ | discriminate ].
  cbn [snd] in Hinit. destruct (clean params).
  { intros Hrun. by apply after_clean_raises in Hrun. }
  destruct (files w0 !! ip_cachename_of params) as [content | ]; [ | discriminate ].
  destruct (decode E content) as [text | ]; [ | discriminate ].
  destruct (route E) as [ip | failure]; [ | discriminate ].
  destruct (update_decision _ _ _).
  { intros Hrun. by apply after_clean_raises in Hrun. }
  intros [= <- <-]. done.
Qed.

(** The run that finds the cached address current returns 0 and makes no
    request. *)
Lemma noop_run (params : Namespace) (content text ip : string) (w : World) :
  logfile params = "" -> clean params = false -> hard params = false ->
  files w !! ip_cachename_of params = Some content ->
  decode E content = Some text ->
  route E = SockName ip ->
  Py.rstrip (Py.universal_newlines text) = ip ->
  main_body E params w = (Return 0, w).
Proof.
  intros Hlog Hclean Hhard Hfile Htext Hroute Hsame.
  rewrite main_body_spec, Log_init_spec. unfold do_log_of.
  rewrite Hlog, Hclean. cbn [String.eqb]. rewrite Hfile, Htext, Hroute, Hhard, Hsame.
  unfold update_decision.
  by rewrite (bool_decide_eq_true_2 (Some ip = Some ip)) by reflexivity.
Qed.

(** A listing that the provider refuses is not an error for the Clean step:
    nothing is removed and the step returns. *)
Lemma dyndns_clean_refused (key record type : string) (items : list (string * pyval))
    (status : pyval) (w : World) :
  provider E (sent w) (api_url (list_params key (random_uuid E (draws w)))) =
    Response (Some (PDict items)) ->
  Py.lookup_item "result" items = Some status ->
  Py.eq_str status "success" = false ->
  dyndns_clean E key record type w =
    (Return (), sending (api_url (list_params key (random_uuid E (draws w)))) (drawn w)).
Proof.
  intros Hlist Hresult Hrefused. unfold dyndns_clean.
  rewrite bind_run, dyndns_list_spec, Hlist. cbn [api_result mbind res_bind].
  unfold select_records. cbn [Py.getitem]. rewrite Hresult. cbn [mbind res_bind].
  by rewrite Hrefused.
Qed.

(** The requests of the script are the requests of the interface. *)
Lemma list_request_sent (key nonce : string) :
  api_url (list_params key nonce) = list_request key nonce.
Proof. reflexivity. Qed.

Lemma remove_request_sent (key record type : string) (value : pyval) :
  api_url (rem_params E key record type value) =
    remove_request key (record_nonce E record) record type value.
Proof. reflexivity. Qed.

Lemma add_request_sent (key record type : string) (value : pyval) :
  api_url (add_params E key record type value "") =
    add_request key (record_nonce E record) record type value.
Proof. reflexivity. Qed.

(** What leaves the operations, and the Clean step, when they raise. *)
Lemma status_raises (answer : http_outcome) (e : exn) :
  api_result answer ≫= is_success = Raise e -> api_exception e = true.
Proof.
  destruct answer as [s | cls os_error | body]; cbn [api_result mbind res_bind].
  - by intros [= <-].
  - by intros [= <-].
  - assert (Hreturn : exists v, api_result (Response body) = Return v)
      by (destruct body; cbn; eauto).
    destruct Hreturn as [v Hv]. cbn [api_result] in Hv. rewrite Hv. cbn [mbind res_bind].
    intros Hraise%is_success_raises. by destruct e.
Qed.

Lemma remove_loop_raises (key record type : string) (rs : list pyval) (e : exn) :
  forall w,
    fst (for_each rs (remove_listed E key record type) w) = Raise e ->
    api_exception e = true.
Proof.
  induction rs as [ | r rs IH]; intros w; cbn [for_each]; [ discriminate | ].
  rewrite bind_run, remove_listed_spec.
  destruct (Py.getitem r "value") as [value | e'] eqn:Hvalue.
  - destruct (api_result _ ≫= is_success) as [ok | e'] eqn:Hstatus.
    + apply IH.
    + cbn [fst]. intros [= <-]. by apply status_raises in Hstatus.
  - cbn [fst]. intros [= <-]. apply getitem_raises in Hvalue. by destruct e'.
Qed.

Lemma dyndns_clean_raises (key record type : string) (w : World) (e : exn) :
  fst (dyndns_clean E key record type w) = Raise e -> api_exception e = true.
Proof.
  unfold dyndns_clean. rewrite bind_run, dyndns_list_spec.
  destruct (provider E (sent w) (api_url (list_params key (random_uuid E (draws w)))))
    as [s | cls os_error | body]; cbn [api_result mbind res_bind];
    try (by intros [= <-]).
  assert (Hreturn : exists v, api_result (Response body) = Return v)
    by (destruct body; cbn; eauto).
  destruct Hreturn as [v Hv]. cbn [api_result] in Hv. rewrite Hv. cbn [mbind res_bind].
  destruct (select_records _ _ _ v) as [results | e'] eqn:Hselect.
  - destruct (Py.is_None results); [ discriminate | ].
    rewrite bind_lift. destruct (Py.iter results) as [rs | e'] eqn:Hiter.
    + apply remove_loop_raises.
    + cbn [fst]. intros [= <-]. destruct results; try discriminate; by injection Hiter as <-.
  - cbn [fst]. intros [= <-]. apply select_records_raises in Hselect. by destruct e'.
Qed.

Lemma api_exception_status (e : exn) : api_exception e = true -> exit_status (Raise e) = 1.
Proof. by destruct e. Qed.

(** C1, as the code has it. When [main] returns, it returns 0. A remote
    call that only reports a failure raises nothing and does not stop what
    follows it in the API client: after a listing that the provider
    refuses the Clean step returns with nothing removed; after a removal
    that the provider answers, whatever result it reports, the loop goes
    on with the records that are left; and after an add that the provider
    answers, whatever result it reports, the Persist step is run. An
    exception raised by an API-client operation is another matter:
    nothing in [main] catches it, so an exception that leaves the Clean
    step leaves [main], in clean mode and in update mode alike and
    whether or not a log file was opened, and the process ends with
    status 1. *)
Theorem api_exceptions_end_the_run :
  (forall params w code, fst (main_body E params w) = Return code -> code = 0)
  /\ (forall key record type items status w,
        provider E (sent w) (list_request key (random_uuid E (draws w))) =
          Response (Some (PDict items)) ->
        Py.lookup_item "result" items = Some status ->
        Py.eq_str status "success" = false ->
        dyndns_clean E key record type w =
          (Return (),
           {| sent := sent w ++ [list_request key (random_uuid E (draws w))];
              draws := S (draws w); files := files w |}))
  /\ (forall key record type r rs items status w,
        is_record r = true ->
        provider E (sent w)
          (remove_request key (record_nonce E record) record type (field r "value")) =
          Response (Some (PDict items)) ->
        Py.lookup_item "result" items = Some status ->
        for_each (r :: rs) (remove_listed E key record type) w =
          for_each rs (remove_listed E key record type)
            {| sent := sent w ++ [remove_request key (record_nonce E record) record type
                                    (field r "value")];
               draws := draws w; files := files w |})
  /\ (forall params ip_cachename ip items status w,
        provider E (sent w)
          (add_request (key params) (record_nonce E (hostname params)) (hostname params)
             "A" (PStr ip)) = Response (Some (PDict items)) ->
        Py.lookup_item "result" items = Some status ->
        add_and_persist E params ip_cachename (Some ip) w =
          write_cache E ip_cachename (Some ip)
            {| sent := sent w ++ [add_request (key params) (record_nonce E (hostname params))
                                    (hostname params) "A" (PStr ip)];
               draws := draws w; files := files w |})
  /\ (forall params w l w0 e,
        Log_init E (logfile params) (do_log_of params) w = (Return l, w0) ->
        fst (dyndns_clean E (key params) (hostname params) "A" w0) = Raise e ->
        clean params = true
        \/ (clean params = false
            /\ exists content text ip,
                 files w0 !! ip_cachename_of params = Some content
                 /\ decode E content = Some text
                 /\ route E = SockName ip
                 /\ update_decision (Some (Py.rstrip (Py.universal_newlines text)))
                      (Some ip) (hard params) = true) ->
        main_body E params w =
          (Raise e, snd (dyndns_clean E (key params) (hostname params) "A" w0))
        /\ exit_status (fst (main_body E params w)) = 1).
Proof.
  split; [ | split; [ | split; [ | split ] ] ].
  - intros params w code Hreturn. by apply main_body_return in Hreturn as [-> _].
  - intros key record type items status w Hlist Hresult Hrefused.
    rewrite <- list_request_sent in Hlist |- *.
    by rewrite (dyndns_clean_refused key record type items status w Hlist Hresult Hrefused).
  - intros key record type r rs items status w Hr Hanswer Hresult.
    rewrite <- remove_request_sent in Hanswer |- *.
    cbn [for_each]. rewrite bind_run.
    rewrite remove_listed_spec, (is_record_getitem r "value" Hr) by set_solver.
    rewrite Hanswer. cbn [api_result mbind res_bind]. unfold is_success.
    cbn [Py.getitem]. rewrite Hresult. cbn [mbind res_bind].
    by destruct (Py.eq_str status "success").
  - intros params ip_cachename ip items status w Hanswer Hresult.
    rewrite <- add_request_sent in Hanswer |- *.
    rewrite add_and_persist_spec, Hanswer. cbn [api_result mbind res_bind].
    unfold is_success. cbn [Py.getitem]. rewrite Hresult. cbn [mbind res_bind].
    by destruct (Py.eq_str status "success").
  - intros params w l w0 e Hinit Hraise Hmode.
    assert (Hrun : main_body E params w =
                     (Raise e, snd (dyndns_clean E (key params) (hostname params) "A" w0))).
    { rewrite main_body_spec, Hinit.
      assert (Hafter : after_clean (dyndns_clean E (key params) (hostname params) "A" w0) =
                (Raise e, snd (dyndns_clean E (key params) (hostname params) "A" w0))).
      { destruct (dyndns_clean E (key params) (hostname params) "A" w0) as [outcome w1].
        cbn [fst snd] in *. by subst outcome. }
      destruct Hmode as [-> | (-> & content & text & ip & -> & -> & -> & ->)];
        exact Hafter. }
    split; [ exact Hrun | ]. rewrite Hrun. cbn [fst].
    apply api_exception_status.
    exact (dyndns_clean_raises (key params) (hostname params) "A" w0 e Hraise).
Qed.

End Runs.

(** A provider that turns everything down, and a provider that cannot be
    reached. The refused listing, the refused removal and the refused add
    stop nothing; the [ConnectionError] ends the run with status 1. *)
Lemma api_exceptions_end_the_run_witness :
  dyndns_clean Cases.refusing "KEY" Scenario.host "A" Scenario.fresh =
    (Return (),
     {| sent := [list_request "KEY" "random-0"]; draws := 1; files := ∅ |})
  /\ for_each Cases.triple (remove_listed Cases.refusing "KEY" Scenario.host "A")
       Scenario.fresh =
     for_each (tail Cases.triple) (remove_listed Cases.refusing "KEY" Scenario.host "A")
       {| sent := [remove_request "KEY" (record_nonce Cases.refusing Scenario.host)
                     Scenario.host "A" (PStr "203.0.113.5")];
          draws := 0; files := ∅ |}
  /\ add_and_persist Cases.refusing Scenario.update_args Scenario.cachename
       (Some "203.0.113.9") Scenario.fresh =
     write_cache Cases.refusing Scenario.cachename (Some "203.0.113.9")
       {| sent := [add_request "KEY" (record_nonce Cases.refusing Scenario.host)
                     Scenario.host "A" (PStr "203.0.113.9")];
          draws := 0; files := ∅ |}
  /\ main_body Scenario.unreachable Scenario.clean_args (Scenario.cached "203.0.113.5") =
       (Raise (ConnectionError None),
        snd (dyndns_clean Scenario.unreachable "KEY" Scenario.host "A"
               (Scenario.cached "203.0.113.5")))
  /\ exit_status
       (fst (main_body Scenario.unreachable Scenario.clean_args
               (Scenario.cached "203.0.113.5"))) = 1.
Proof.
  destruct (api_exceptions_end_the_run Cases.refusing)
    as (_ & Hlisting & Hremoval & Hadd & _).
  destruct (api_exceptions_end_the_run Scenario.unreachable) as (_ & _ & _ & _ & Hends).
  split; [ | split; [ | split ] ].
  - apply (Hlisting "KEY" Scenario.host "A"
             [("result", PStr "error"); ("data", PStr "no_such_zone")] (PStr "error")
             Scenario.fresh); reflexivity.
  - apply (Hremoval "KEY" Scenario.host "A"
             (Scenario.record_object "1" Scenario.host "A" "203.0.113.5")
             (tail Cases.triple)
             [("result", PStr "error"); ("data", PStr "no_such_zone")] (PStr "error")
             Scenario.fresh); reflexivity.
  - apply (Hadd Scenario.update_args Scenario.cachename "203.0.113.9"
             [("result", PStr "error"); ("data", PStr "no_such_zone")] (PStr "error")
             Scenario.fresh); reflexivity.
  - apply (Hends Scenario.clean_args (Scenario.cached "203.0.113.5") Scenario.no_log
             (Scenario.cached "203.0.113.5") (ConnectionError None));
      [ reflexivity | reflexivity | by left ].
Defined.

(** The provider cannot be reached: the [ConnectionError] of the list
    request ends the clean-mode run, and the process, with status 1. *)
Lemma unreachable_provider_ends_the_run :
  fst (main_body Scenario.unreachable Scenario.clean_args (Scenario.cached "203.0.113.5"))
    = Raise (ConnectionError None)
  /\ exit_status
       (fst (main_body Scenario.unreachable Scenario.clean_args
               (Scenario.cached "203.0.113.5"))) = 1
  /\ exit_status
       (fst (main_body Scenario.unreachable Scenario.clean_args
               (Scenario.cached "203.0.113.5"))) <> 0.
Proof. repeat split; vm_compute; (reflexivity || discriminate). Qed.

(** *** The runs that go wrong *)

(** A clean-mode run against a provider that answers every request: the
    log call after the Clean step raises [TypeError], nothing catches it,
    and the process ends with status 1. The same happens in update mode;
    and from the command line the run does not get past the construction
    of its parser. *)
Lemma log_call_ends_the_run :
  fst (main_body Scenario.healthy Scenario.clean_args (Scenario.cached "203.0.113.5"))
    = Raise TypeError
  /\ exit_status
       (fst (main_body Scenario.healthy Scenario.clean_args (Scenario.cached "203.0.113.5")))
     = 1
  /\ exit_status
       (fst (main_body Scenario.healthy Scenario.update_args (Scenario.cached "203.0.113.5")))
     = 1
  /\ exit_status
       (fst (main Scenario.healthy ["KEY"; Scenario.host; "-c"] (Scenario.cached "203.0.113.5")))
     = 1.
Proof. repeat split; vm_compute; reflexivity. Qed.

(** C2. The network stack finds no route: [get_current_ip] raises
    [ConnectionError], the handler's log call raises [TypeError], and the
    run is over with status 1 instead of going on with an unknown address.
    The handler binds nothing to [current_ip] either, so the test of the
    Update Decision could not be evaluated after it. *)
Theorem unresolved_ip_aborts :
  get_current_ip Scenario.offline (Scenario.cached "203.0.113.5") =
    (Raise (ConnectionError (Some "Error connecting to Google. Network is unreachable.")),
     Scenario.cached "203.0.113.5")
  /\ main_body Scenario.offline Scenario.update_args (Scenario.cached "203.0.113.5") =
       (Raise TypeError, Scenario.cached "203.0.113.5")
  /\ exit_status
       (fst (main_body Scenario.offline Scenario.update_args (Scenario.cached "203.0.113.5")))
     = 1
  /\ fst (decide_and_update Scenario.offline Scenario.update_args Scenario.no_log
            Scenario.cachename (Some "203.0.113.5") None (Scenario.cached "203.0.113.5"))
     = Raise (UnboundLocalError "current_ip").
Proof. repeat split; vm_compute; reflexivity. Qed.

(** C5. A clean-mode run: the list request and the removal of the one
    matching record go out and no add request does, but the run stops at
    the log call that follows: the cache file is still there and the run
    does not return 0. The removal of the cache file, had it been reached,
    names a module that was never imported. *)
Theorem clean_mode_stops_at_log :
  fst (main_body Scenario.healthy Scenario.clean_args (Scenario.cached "203.0.113.5"))
    = Raise TypeError
  /\ sent (snd (main_body Scenario.healthy Scenario.clean_args (Scenario.cached "203.0.113.5")))
     = [api_url (list_params "KEY" "random-0");
        api_url (rem_params Scenario.healthy "KEY" Scenario.host "A" (PStr "203.0.113.5"))]
  /\ files (snd (main_body Scenario.healthy Scenario.clean_args
                   (Scenario.cached "203.0.113.5"))) !! Scenario.cachename
     = Some ("203.0.113.5" +:+ String "010" "")
  /\ os_remove Scenario.cachename (Scenario.cached "203.0.113.5")
     = (Raise (NameError "os"), Scenario.cached "203.0.113.5").
Proof. repeat split; vm_compute; reflexivity. Qed.

(** C8. Two runs in a row with the address 203.0.113.9 and the cache at
    203.0.113.5, against a provider that remembers what was removed: the
    first run cleans and stops at the log call, before Add and Persist, so
    no add request is made and the cache keeps the old address; the second
    run decides to update again and sends the list request of the Clean
    step once more. *)
Theorem second_run_cleans_again :
  let first :=
    main_body Scenario.consistent Scenario.update_args (Scenario.cached "203.0.113.5") in
  let second := main_body Scenario.consistent Scenario.update_args (snd first) in
  fst first = Raise TypeError
  /\ sent (snd first) =
       [api_url (list_params "KEY" "random-0");
        api_url (rem_params Scenario.consistent "KEY" Scenario.host "A" (PStr "203.0.113.5"))]
  /\ files (snd first) !! Scenario.cachename = Some ("203.0.113.5" +:+ String "010" "")
  /\ fst second = Raise TypeError
  /\ sent (snd second) = sent (snd first) ++ [api_url (list_params "KEY" "random-1")].
Proof. repeat split; vm_compute; reflexivity. Qed.

(** C3. The test of lines 209 to 211 is true exactly when the current
    address is known and the cached address is unknown, or differs from
    it, or the force flag is set, and it alone decides whether the body of
    the [if] is entered. The body does not get to Add and Persist. In a
    run that the force flag sends into the update, with the cache at the
    current address, the decision is true and the Clean step removes the
    record of the host; the log call after it raises [TypeError]; no add
    request is made and the cache file is not written. Lines 215 to 218,
    entered on their own in the world that the run leaves, make the add
    request and write the cache. *)
Theorem decision_true_stops_before_add :
  (forall cached_ip current_ip hard,
      update_decision cached_ip current_ip hard = true <->
      current_ip <> None /\ (cached_ip = None \/ cached_ip <> current_ip \/ hard = true))
  /\ (forall E params logfile ip_cachename cached_ip current_ip w,
        decide_and_update E params logfile ip_cachename cached_ip (Some current_ip) w =
          if update_decision cached_ip current_ip (hard params)
          then update_block E params logfile ip_cachename current_ip w
          else (Return (), w))
  /\ update_decision (Some "203.0.113.9") (Some "203.0.113.9") (hard Cases.forced_args)
       = true
  /\ main_body Scenario.healthy Cases.forced_args (Scenario.cached "203.0.113.9") =
       (Raise TypeError,
        {| sent :=
             [list_request "KEY" "random-0";
              remove_request "KEY"
                "sha1(6ba7b811-9dad-11d1-80b4-00c04fd430c8,host.example.com)"
                "host.example.com" "A" (PStr "203.0.113.5")];
           draws := 1;
           files := {[ Scenario.cachename := "203.0.113.9" +:+ String "010" "" ]} |})
  /\ add_and_persist Scenario.healthy Cases.forced_args Scenario.cachename
       (Some "203.0.113.9")
       (snd (main_body Scenario.healthy Cases.forced_args (Scenario.cached "203.0.113.9"))) =
       (Return (),
        {| sent :=
             [list_request "KEY" "random-0";
              remove_request "KEY"
                "sha1(6ba7b811-9dad-11d1-80b4-00c04fd430c8,host.example.com)"
                "host.example.com" "A" (PStr "203.0.113.5");
              add_request "KEY"
                "sha1(6ba7b811-9dad-11d1-80b4-00c04fd430c8,host.example.com)"
                "host.example.com" "A" (PStr "203.0.113.9")];
           draws := 1;
           files := {[ Scenario.cachename := "203.0.113.9" +:+ String "010" "" ]} |}).
Proof.
  split; [ exact update_decision_iff | ].
  split; [ exact decide_and_update_spec | ].
  repeat split; vm_compute; reflexivity.
Qed.



(** * Further properties of the script *)

(** ** What a run leaves behind *)

Section RunEffects.

Variable E : Env.

Lemma after_clean_files (key record type : string) (w : World) :
  files (snd (after_clean (dyndns_clean E key record type w))) = files w.
Proof.
  pose proof (dyndns_clean_requests E key record type w) as [Hfiles _].
  by destruct (dyndns_clean E key record type w) as [[[] | e] w'].
Qed.

(** X1. No run of lines 174 to 221 writes the cache file or a line of the
    log: the only change a run makes to the files is that opening the log
    file creates it, empty, when it did not exist. *)
Theorem run_leaves_files (params : Namespace) (w : World) :
  files (snd (main_body E params w)) =
    if do_log_of params && writable E (logfile params)
    then <[logfile params := default "" (files w !! logfile params)]> (files w)
    else files w.
Proof.
  rewrite (main_body_spec E), (Log_init_spec E).
  destruct (do_log_of params); cbn [andb]; [ destruct (writable E (logfile params)) | ];
    try reflexivity;
    (destruct (clean params); [ by rewrite after_clean_files | ];
     match goal with
     | |- context [files ?w0 !! ip_cachename_of params] =>
         destruct (files w0 !! ip_cachename_of params) as [content | ]; [ | reflexivity ]
     end;
     destruct (decode E content) as [text | ]; [ | reflexivity ];
     destruct (route E) as [ip | failure]; [ | reflexivity ];
     destruct (update_decision _ _ _); [ by rewrite after_clean_files | reflexivity ]).
Qed.

Lemma removal_is_clean_request (key record type : string) (value : pyval) :
  clean_request key (api_url (rem_params E key record type value)) = true.
Proof. unfold clean_request. cbn. by rewrite String.eqb_refl. Qed.

Lemma listing_is_clean_request (key nonce : string) :
  clean_request key (api_url (list_params key nonce)) = true.
Proof. unfold clean_request. cbn. by rewrite String.eqb_refl. Qed.

Lemma remove_loop_clean_requests (key record type : string) (rs : list pyval) :
  forall w, exists more,
    sent (snd (for_each rs (remove_listed E key record type) w)) = sent w ++ more
    /\ forallb (clean_request key) more = true.
Proof.
  induction rs as [ | r rs IH]; intros w; cbn [for_each].
  - exists []. by rewrite app_nil_r.
  - rewrite bind_run, remove_listed_spec.
    destruct (Py.getitem r "value") as [value | e];
      [ | exists []; by rewrite app_nil_r ].
    destruct (api_result _ ≫= is_success) as [ok | e].
    + destruct (IH (sending (api_url (rem_params E key record type value)) w))
        as (more & Hsent & Hmore).
      exists (api_url (rem_params E key record type value) :: more).
      rewrite Hsent. cbn [sending sent forallb].
      rewrite removal_is_clean_request, Hmore. by rewrite <- app_assoc.
    + exists [api_url (rem_params E key record type value)].
      cbn [snd sending sent forallb]. by rewrite removal_is_clean_request.
Qed.

Lemma dyndns_clean_clean_requests (key record type : string) (w : World) :
  exists more,
    sent (snd (dyndns_clean E key record type w)) = sent w ++ more
    /\ forallb (clean_request key) more = true.
Proof.
  unfold dyndns_clean. rewrite bind_run, dyndns_list_spec.
  set (url := api_url (list_params key (random_uuid E (draws w)))).
  assert (Hhere : exists more,
             sent (sending url (drawn w)) = sent w ++ more
             /\ forallb (clean_request key) more = true).
  { exists [url]. split; [ reflexivity | ]. cbn [forallb]. unfold url.
    by rewrite listing_is_clean_request. }
  destruct (api_result _ ≫= select_records _ _ _) as [results | e]; [ | exact Hhere ].
  destruct (Py.is_None results); [ exact Hhere | ].
  rewrite bind_lift. destruct (Py.iter results) as [rs | e]; [ | exact Hhere ].
  destruct (remove_loop_clean_requests key record type rs (sending url (drawn w)))
    as (more & Hsent & Hmore).
  exists (url :: more). rewrite Hsent. cbn [sending drawn sent forallb]. unfold url.
  rewrite listing_is_clean_request, Hmore. by rewrite <- app_assoc.
Qed.

(** X2. Whatever the provider, the cache and the network do, the requests
    that a run of lines 174 to 221 makes are list and remove requests to
    the provider's address with the API key of the invocation: no run
    sends an add request. *)
Theorem run_never_adds (params : Namespace) (w : World) :
  exists more,
    sent (snd (main_body E params w)) = sent w ++ more
    /\ forallb (clean_request (key params)) more = true
    /\ forall url, In url more -> cmd_of url <> Some (PStr "dns-add_record").
Proof.
  assert (Hcmd : forall more, forallb (clean_request (key params)) more = true ->
            forall url, In url more -> cmd_of url <> Some (PStr "dns-add_record")).
  { intros more Hmore url Hin Hadd. rewrite forallb_forall in Hmore.
    apply Hmore in Hin. unfold clean_request in Hin. rewrite Hadd in Hin.
    cbn in Hin. by rewrite andb_false_r in Hin. }
  assert (Hnone : forall w0, sent w0 = sent w -> exists more,
            sent w0 = sent w ++ more
            /\ forallb (clean_request (key params)) more = true
            /\ forall url, In url more -> cmd_of url <> Some (PStr "dns-add_record")).
  { intros w0 Hw0. exists []. rewrite app_nil_r. by repeat split. }
  assert (Hclean : forall w0, sent w0 = sent w -> exists more,
            sent (snd (after_clean (dyndns_clean E (key params) (hostname params) "A" w0)))
              = sent w ++ more
            /\ forallb (clean_request (key params)) more = true
            /\ forall url, In url more -> cmd_of url <> Some (PStr "dns-add_record")).
  { intros w0 Hw0.
    destruct (dyndns_clean_clean_requests (key params) (hostname params) "A" w0)
      as (more & Hsent & Hmore).
    exists more. rewrite <- Hw0.
    destruct (dyndns_clean E (key params) (hostname params) "A" w0) as [[[] | e] w1];
      cbn [after_clean snd] in *; eauto. }
  rewrite (main_body_spec E).
  pose proof (Log_init_sent E (logfile params) (do_log_of params) w) as Hinit.
  destruct (Log_init E (logfile params) (do_log_of params) w) as [[l | e] w0];
    cbn [snd] in Hinit; [ | by apply Hnone ].
  destruct (clean params); [ by apply Hclean | ].
  destruct (files w0 !! ip_cachename_of params) as [content | ]; [ | by apply Hnone ].
  destruct (decode E content) as [text | ]; [ | by apply Hnone ].
  destruct (route E) as [ip | failure]; [ | by apply Hnone ].
  destruct (update_decision _ _ _); [ by apply Hclean | by apply Hnone ].
Qed.

End RunEffects.

(** ** How a run ends *)

Section RunEnds.

Variable E : Env.

Lemma decision_false (cached current : string) (hard : bool) :
  update_decision (Some cached) (Some current) hard = false <->
  cached = current /\ hard = false.
Proof.
  unfold update_decision.
  rewrite (bool_decide_eq_false_2 (Some current = None)) by discriminate.
  rewrite (bool_decide_eq_false_2 (Some cached = None)) by discriminate.
  cbn [negb andb orb]. rewrite orb_false_iff, negb_false_iff, bool_decide_eq_true.
  split; intros [Hsame Hhard]; split; congruence.
Qed.

(** X3. With logging off, a run of lines 174 to 221 returns exactly when it
    is an update-mode run without the force flag that finds the cache file
    and the machine's address, and the text of the file, as the read
    gives it (decoded, its line endings translated) and stripped, is that
    address. It then returns 0 and has changed nothing. Every other run
    ends in an exception. *)
Theorem run_returns_iff (params : Namespace) (w w' : World) (code : Z) :
  logfile params = "" ->
  main_body E params w = (Return code, w') <->
  code = 0 /\ w' = w /\ clean params = false /\ hard params = false
  /\ exists content text,
       files w !! ip_cachename_of params = Some content
       /\ decode E content = Some text
       /\ route E = SockName (Py.rstrip (Py.universal_newlines text)).
Proof.
  intros Hlog. split.
  - rewrite (main_body_spec E), (Log_init_spec E). unfold do_log_of. rewrite Hlog.
    cbn [String.eqb]. destruct (clean params).
    { intros Hrun. by apply after_clean_raises in Hrun. }
    destruct (files w !! ip_cachename_of params) as [content | ]; [ | discriminate ].
    destruct (decode E content) as [text | ] eqn:Htext; [ | discriminate ].
    destruct (route E) as [ip | failure]; [ | discriminate ].
    destruct (update_decision (Some (Py.rstrip (Py.universal_newlines text))) (Some ip)
                (hard params)) eqn:Hdecision.
    { intros Hrun. by apply after_clean_raises in Hrun. }
    apply decision_false in Hdecision as [<- Hhard]. intros [= <- <-]. eauto 10.
  - intros (-> & -> & Hclean & Hhard & content & text & Hfile & Htext & Hroute).
    by apply (noop_run E params content text (Py.rstrip (Py.universal_newlines text)) w).
Qed.

(** X4. With logging off, a run in update mode that does not find its
    cache file, as the first run for a host name does, ends at the
    warning it tries to log: it raises [TypeError] before the address is
    resolved and before any request is made. *)
Theorem missing_cache_aborts (params : Namespace) (w : World) :
  logfile params = "" ->
  clean params = false ->
  files w !! ip_cachename_of params = None ->
  main_body E params w = (Raise TypeError, w).
Proof.
  intros Hlog Hclean Hfile. rewrite (main_body_spec E), (Log_init_spec E).
  unfold do_log_of. rewrite Hlog, Hclean. cbn [String.eqb]. by rewrite Hfile.
Qed.

(** X5. With logging off, a run in update mode on a machine whose address
    cannot be resolved raises [TypeError] and makes no request, whether
    the cache file is missing or holds any text that can be decoded, and
    whether or not the force flag is set. *)
Theorem unresolved_ip_never_continues (params : Namespace) (failure : option string)
    (w : World) :
  logfile params = "" ->
  clean params = false ->
  route E = SocketError failure ->
  (forall content, files w !! ip_cachename_of params = Some content ->
     is_Some (decode E content)) ->
  main_body E params w = (Raise TypeError, w).
Proof.
  intros Hlog Hclean Hroute Hdecodes. rewrite (main_body_spec E), (Log_init_spec E).
  unfold do_log_of. rewrite Hlog, Hclean, Hroute. cbn [String.eqb].
  destruct (files w !! ip_cachename_of params) as [content | ]; [ | reflexivity ].
  by destruct (Hdecodes content eq_refl) as [text ->].
Qed.

(** X6. When a log file is asked for and cannot be opened, the run ends
    with the [OSError] of [open], in either mode, before the cache is read
    and before any request is made. *)
Theorem log_file_must_open (params : Namespace) (w : World) :
  logfile params <> "" ->
  writable E (logfile params) = false ->
  exists failure, main_body E params w = (Raise (OSError failure), w).
Proof.
  intros Hlog Hwritable. rewrite (main_body_spec E), (Log_init_spec E). unfold do_log_of.
  apply String.eqb_neq in Hlog. rewrite Hlog, Hwritable. eauto.
Qed.

End RunEnds.

Lemma run_returns_iff_witness :
  main_body Scenario.healthy Scenario.update_args (Scenario.cached "203.0.113.9") =
    (Return 0, Scenario.cached "203.0.113.9").
Proof.
  apply (run_returns_iff Scenario.healthy Scenario.update_args
           (Scenario.cached "203.0.113.9") (Scenario.cached "203.0.113.9") 0).
  - reflexivity.
  - repeat split.
    exists ("203.0.113.9" +:+ String "010" ""), ("203.0.113.9" +:+ String "010" "").
    repeat split; reflexivity.
Defined.

Lemma missing_cache_aborts_witness :
  main_body Scenario.healthy Scenario.update_args Scenario.fresh =
    (Raise TypeError, Scenario.fresh).
Proof.
  apply (missing_cache_aborts Scenario.healthy Scenario.update_args Scenario.fresh);
    reflexivity.
Defined.

Lemma unresolved_ip_never_continues_witness :
  main_body Scenario.offline Scenario.update_args (Scenario.cached "203.0.113.5") =
    (Raise TypeError, Scenario.cached "203.0.113.5").
Proof.
  apply (unresolved_ip_never_continues Scenario.offline Scenario.update_args
           (Some "Network is unreachable") (Scenario.cached "203.0.113.5")).
  - reflexivity.
  - reflexivity.
  - reflexivity.
  - intros content _. by eexists.
Defined.

Lemma log_file_must_open_witness :
  exists failure,
    main_body Cases.read_only Cases.logging_args Scenario.fresh =
      (Raise (OSError failure), Scenario.fresh).
Proof.
  apply (log_file_must_open Cases.read_only Cases.logging_args Scenario.fresh).
  - discriminate.
  - reflexivity.
Defined.

(** ** More on the API client *)

Section Listing.

Variable E : Env.

Lemma filter_all {A} (l : list A) : List.filter (fun _ => true) l = l.
Proof. induction l as [ | x l IH]; [ reflexivity | ]. cbn [List.filter]. by rewrite IH. Qed.

Lemma filter_by_opt (f : string) (wanted : option string) (recs : list pyval) :
  f ∈ ["editable"; "record"; "type"; "value"] ->
  forallb is_record recs = true ->
  filter_by f wanted (PList recs) = Return (PList (List.filter (opt_is f wanted) recs)).
Proof.
  intros Hf Hrecs. destruct wanted as [s | ].
  - exact (filter_by_records f s recs Hf Hrecs).
  - cbn [filter_by opt_is]. by rewrite filter_all.
Qed.

Lemma select_records_passes (editable record type : option string)
    (items : list (string * pyval)) (recs : list pyval) :
  Py.lookup_item "result" items = Some (PStr "success") ->
  Py.lookup_item "data" items = Some (PList recs) ->
  forallb is_record recs = true ->
  select_records editable record type (PDict items) =
    Return (PList (List.filter (passes editable record type) recs)).
Proof.
  intros Hresult Hdata Hrecs. unfold select_records. cbn [Py.getitem].
  rewrite Hresult, Hdata. cbn [mbind res_bind].
  change (Py.eq_str (PStr "success") "success") with true. cbv iota.
  rewrite filter_by_opt by (done || set_solver). cbn [mbind res_bind].
  rewrite filter_by_opt by (by apply forallb_filter || set_solver).
  cbn [mbind res_bind].
  rewrite filter_by_opt by (by do 2 apply forallb_filter || set_solver).
  cbn [mbind res_bind]. rewrite !filter_filter. unfold mret, res_ret.
  do 2 f_equal. apply filter_ext. intros x. unfold passes. by rewrite andb_assoc.
Qed.

(** X7. For a successful listing of well-formed records, [dyndns_list]
    returns the records that satisfy every filter it was given, in the
    order of the listing; a filter that is omitted lets every record
    through, so without filters the whole listing comes back. It makes
    one request and draws one nonce. *)
Theorem list_returns_filtered (key : string) (editable record type : option string)
    (items : list (string * pyval)) (recs : list pyval) (w : World) :
  provider E (sent w) (api_url (list_params key (random_uuid E (draws w)))) =
    Response (Some (PDict items)) ->
  Py.lookup_item "result" items = Some (PStr "success") ->
  Py.lookup_item "data" items = Some (PList recs) ->
  forallb is_record recs = true ->
  dyndns_list E key editable record type w =
    (Return (PList (List.filter (passes editable record type) recs)),
     sending (api_url (list_params key (random_uuid E (draws w)))) (drawn w))
  /\ dyndns_list E key None None None w =
       (Return (PList recs),
        sending (api_url (list_params key (random_uuid E (draws w)))) (drawn w)).
Proof.
  intros Hlist Hresult Hdata Hrecs. rewrite !dyndns_list_spec, Hlist.
  cbn [api_result mbind res_bind].
  rewrite !(select_records_passes _ _ _ items recs Hresult Hdata Hrecs).
  split; [ reflexivity | ]. unfold passes, opt_is. cbn [andb]. by rewrite filter_all.
Qed.

Lemma filter_list_missing (f wanted : string) (good rest : list pyval)
    (bad : list (string * pyval)) :
  f ∈ ["editable"; "record"; "type"; "value"] ->
  forallb is_record good = true ->
  Py.lookup_item f bad = None ->
  filter_list (field_is f wanted) (good ++ PDict bad :: rest) = Raise (KeyError f).
Proof.
  intros Hf Hgood Hbad.
  assert (Hraise : field_is f wanted (PDict bad) = Raise (KeyError f)).
  { unfold field_is. cbn [Py.getitem]. by rewrite Hbad. }
  induction good as [ | x good IH].
  - cbn [app filter_list]. by rewrite Hraise.
  - cbn [forallb] in Hgood. apply andb_prop in Hgood as [Hx Hgood].
    cbn [app filter_list]. rewrite (field_is_record f wanted x Hx Hf).
    cbn [mbind res_bind]. by rewrite (IH Hgood).
Qed.

Lemma filter_by_missing (f wanted : string) (good rest : list pyval)
    (bad : list (string * pyval)) :
  f ∈ ["editable"; "record"; "type"; "value"] ->
  forallb is_record good = true ->
  Py.lookup_item f bad = None ->
  filter_by f (Some wanted) (PList (good ++ PDict bad :: rest)) = Raise (KeyError f).
Proof.
  intros Hf Hgood Hbad. unfold filter_by, py_filter. cbn [Py.iter mbind res_bind].
  by rewrite (filter_list_missing f wanted good rest bad Hf Hgood Hbad).
Qed.

(** X8. One listed entry without an [editable] member spoils the whole
    Clean step: [dyndns_clean] raises [KeyError] while it filters the
    listing, so that no record is removed, not even the well-formed
    matching records listed before the damaged entry. *)
Theorem damaged_listing_removes_nothing (key record type : string)
    (items : list (string * pyval)) (good rest : list pyval)
    (bad : list (string * pyval)) (w : World) :
  provider E (sent w) (api_url (list_params key (random_uuid E (draws w)))) =
    Response (Some (PDict items)) ->
  Py.lookup_item "result" items = Some (PStr "success") ->
  Py.lookup_item "data" items = Some (PList (good ++ PDict bad :: rest)) ->
  forallb is_record good = true ->
  Py.lookup_item "editable" bad = None ->
  dyndns_clean E key record type w =
    (Raise (KeyError "editable"),
     sending (api_url (list_params key (random_uuid E (draws w)))) (drawn w)).
Proof.
  intros Hlist Hresult Hdata Hgood Hbad. unfold dyndns_clean.
  rewrite bind_run, dyndns_list_spec, Hlist. cbn [api_result mbind res_bind].
  unfold select_records. cbn [Py.getitem]. rewrite Hresult, Hdata.
  cbn [mbind res_bind].
  change (Py.eq_str (PStr "success") "success") with true. cbv iota.
  rewrite filter_by_missing by (done || set_solver). reflexivity.
Qed.

End Listing.

Lemma list_returns_filtered_witness :
  dyndns_list Scenario.healthy "KEY" None (Some Scenario.host) None Scenario.fresh =
    (Return (PList (List.filter (passes None (Some Scenario.host) None) Scenario.zone)),
     sending (api_url (list_params "KEY" "random-0")) (drawn Scenario.fresh))
  /\ dyndns_list Scenario.healthy "KEY" None None None Scenario.fresh =
       (Return (PList Scenario.zone),
        sending (api_url (list_params "KEY" "random-0")) (drawn Scenario.fresh)).
Proof.
  apply (list_returns_filtered Scenario.healthy "KEY" None (Some Scenario.host) None
           [("result", PStr "success"); ("data", PList Scenario.zone)]
           Scenario.zone Scenario.fresh); reflexivity.
Defined.

Lemma damaged_listing_removes_nothing_witness :
  dyndns_clean Cases.damaged "KEY" Scenario.host "A" Scenario.fresh =
    (Raise (KeyError "editable"),
     sending (api_url (list_params "KEY" "random-0")) (drawn Scenario.fresh)).
Proof.
  apply (damaged_listing_removes_nothing Cases.damaged "KEY" Scenario.host "A"
           [("result", PStr "success"); ("data", PList Cases.damaged_zone)]
           [Scenario.record_object "1" Scenario.host "A" "203.0.113.5"]
           [Scenario.record_object "1" Scenario.host "A" "203.0.113.8"]
           [("record", PStr Scenario.host); ("type", PStr "A"); ("value", PStr "203.0.113.6")]
           Scenario.fresh); reflexivity.
Defined.

Section Removal.

Variable E : Env.

Lemma for_each_app {A} (xs ys : list A) (body : A -> M unit) (w : World) :
  for_each (xs ++ ys) body w =
    match for_each xs body w with
    | (Return _, w') => for_each ys body w'
    | (Raise e, w') => (Raise e, w')
    end.
Proof.
  revert w. induction xs as [ | x xs IH]; intros w; [ reflexivity | ].
  cbn [app for_each]. rewrite !bind_run.
  destruct (body x w) as [[[] | e] w']; [ apply IH | reflexivity ].
Qed.

Lemma remove_loop_answered (key record type : string) (rs : list pyval) :
  (forall history x, In x rs ->
      answered (provider E history (removal E key record type x)) = true) ->
  forallb is_record rs = true ->
  forall w,
    for_each rs (remove_listed E key record type) w =
      (Return (), {| sent := sent w ++ map (removal E key record type) rs;
                     draws := draws w; files := files w |}).
Proof.
  induction rs as [ | r rs IH]; intros Hanswered Hrs w.
  - cbn [for_each map]. rewrite app_nil_r. by destruct w.
  - cbn [forallb] in Hrs. apply andb_prop in Hrs as [Hr Hrs].
    cbn [for_each]. rewrite bind_run, remove_listed_spec.
    rewrite (is_record_getitem r "value" Hr) by set_solver.
    destruct (answered_status _ (Hanswered (sent w) r (or_introl eq_refl))) as [ok Hok].
    unfold removal in Hok. rewrite Hok.
    rewrite IH by (done || intros history x Hx; apply Hanswered; by right).
    cbn [sending sent draws files map]. unfold removal. by rewrite <- app_assoc.
Qed.

(** X9. The Clean step is not atomic. When the removal of one matching
    record meets a transport failure, [dyndns_clean] raises
    [ConnectionError] there: the matching records listed before it have
    been removed, and for those listed after it no request is made. *)
Theorem clean_stops_at_failed_removal (key record type : string)
    (items : list (string * pyval)) (recs before rest : list pyval) (r : pyval)
    (failure : option string) (w : World) :
  provider E (sent w) (api_url (list_params key (random_uuid E (draws w)))) =
    Response (Some (PDict items)) ->
  Py.lookup_item "result" items = Some (PStr "success") ->
  Py.lookup_item "data" items = Some (PList recs) ->
  forallb is_record recs = true ->
  List.filter (matches record type) recs = before ++ r :: rest ->
  (forall history x, In x before ->
      answered (provider E history (removal E key record type x)) = true) ->
  (forall history,
      provider E history (removal E key record type r) = TransportFailure failure) ->
  dyndns_clean E key record type w =
    (Raise (ConnectionError failure),
     {| sent := sent w ++ api_url (list_params key (random_uuid E (draws w)))
                  :: map (removal E key record type) (before ++ [r]);
        draws := S (draws w);
        files := files w |}).
Proof.
  intros Hlist Hresult Hdata Hrecs Hsplit Hbefore Hfail.
  rewrite (dyndns_clean_spec E key record type items recs w Hlist Hresult Hdata Hrecs).
  assert (Hall : forallb is_record (before ++ r :: rest) = true).
  { rewrite <- Hsplit. by apply forallb_filter. }
  rewrite forallb_app in Hall. apply andb_prop in Hall as [Hrb Hrr].
  cbn [forallb] in Hrr. apply andb_prop in Hrr as [Hr _].
  rewrite Hsplit, for_each_app, (remove_loop_answered key record type before Hbefore Hrb).
  cbn [for_each]. rewrite bind_run, remove_listed_spec.
  rewrite (is_record_getitem r "value" Hr) by set_solver.
  cbn [sending drawn sent draws files].
  pose proof (fun history => Hfail history) as Hhere. unfold removal in Hhere.
  rewrite Hhere. cbn [api_result mbind res_bind]. rewrite map_app. cbn [map].
  unfold sending. cbn [sent draws files]. do 2 f_equal. unfold removal.
  rewrite <- !app_assoc. reflexivity.
Qed.

End Removal.

Lemma clean_stops_at_failed_removal_witness :
  dyndns_clean Cases.flaky "KEY" Scenario.host "A" Scenario.fresh =
    (Raise (ConnectionError (Some "Connection reset by peer")),
     {| sent := [api_url (list_params "KEY" "random-0");
                 api_url (rem_params Cases.flaky "KEY" Scenario.host "A" (PStr "203.0.113.5"));
                 api_url (rem_params Cases.flaky "KEY" Scenario.host "A" (PStr "203.0.113.6"))];
        draws := 1;
        files := ∅ |}).
Proof.
  apply (clean_stops_at_failed_removal Cases.flaky "KEY" Scenario.host "A"
           [("result", PStr "success"); ("data", PList Cases.triple)]
           Cases.triple
           [Scenario.record_object "1" Scenario.host "A" "203.0.113.5"]
           [Scenario.record_object "1" Scenario.host "A" "203.0.113.8"]
           (Scenario.record_object "1" Scenario.host "A" "203.0.113.6")
           (Some "Connection reset by peer") Scenario.fresh).
  - reflexivity.
  - reflexivity.
  - reflexivity.
  - reflexivity.
  - reflexivity.
  - intros history x [<- | []]. reflexivity.
  - intros history. reflexivity.
Defined.

Section Requests.

Variable E : Env.

(** X10. [request_json] makes one request and turns two of its outcomes
    into something else: the [URLError] of [urlopen] becomes the module's
    [ConnectionError], and a body that does not parse becomes the value
    [None]. A body that parses is returned as parsed, and an exception
    that interrupts the response while it is received or read is not
    caught: it leaves [request_json] as it is. [request_json] never
    raises [URLError], so the [except URLError] clauses that the three
    operations put around it never fire. *)
Theorem request_json_outcomes (url : Url) (params : list (string * pyval)) (w : World) :
  request_json E url w =
    (match provider E (sent w) url with
     | TransportFailure s => Raise (ConnectionError s)
     | Interrupted cls os_error => Raise (LibraryError cls os_error)
     | Response (Some v) => Return v
     | Response None => Return PNone
     end,
     {| sent := sent w ++ [url]; draws := draws w; files := files w |})
  /\ (forall e, fst (request_json E url w) = Raise e -> isinstance_URLError e = false)
  /\ request_api E params w = request_json E (api_url params) w.
Proof.
  assert (Hspec : forall u, request_json E u w =
                    (api_result (provider E (sent w) u), sending u w)).
  { intros u. unfold request_json, try_except, try_except_else, urlopen.
    rewrite bind_run. by destruct (provider E (sent w) u) as [s | cls os_error | [v | ]]. }
  split; [ apply Hspec | ]. split.
  - rewrite Hspec. cbn [fst].
    destruct (provider E (sent w) url) as [s | cls os_error | [v | ]]; try discriminate;
      by intros e [= <-].
  - by rewrite request_api_spec, Hspec.
Qed.

(** X11. The shapes of a successful response that [dyndns_list] does not
    expect. Without a [data] member it raises [KeyError]. Without filters
    it returns the [data] member as it is, list or not. With a filter, a
    [data] member that is [None], a boolean or a number raises
    [TypeError]. *)
Theorem listing_shapes (editable record type : option string)
    (items : list (string * pyval)) :
  Py.lookup_item "result" items = Some (PStr "success") ->
  (Py.lookup_item "data" items = None ->
     select_records editable record type (PDict items) = Raise (KeyError "data"))
  /\ (forall data, Py.lookup_item "data" items = Some data ->
        select_records None None None (PDict items) = Return data)
  /\ (forall data, Py.lookup_item "data" items = Some data ->
        Py.iter data = Raise TypeError ->
        editable <> None \/ record <> None \/ type <> None ->
        select_records editable record type (PDict items) = Raise TypeError).
Proof.
  intros Hresult. unfold select_records. cbn [Py.getitem]. rewrite Hresult.
  cbn [mbind res_bind].
  change (Py.eq_str (PStr "success") "success") with true. cbv iota.
  split; [ | split ].
  - by intros ->.
  - by intros data ->.
  - intros data -> Hiter Hgiven. cbn [mbind res_bind].
    unfold filter_by, py_filter.
    destruct editable as [e | ]; [ by rewrite Hiter | ].
    destruct record as [r | ]; [ cbn [mbind res_bind mret res_ret]; by rewrite Hiter | ].
    destruct type as [t | ]; [ cbn [mbind res_bind mret res_ret]; by rewrite Hiter | ].
    by destruct Hgiven as [Habs | [Habs | Habs]].
Qed.

End Requests.

Lemma listing_shapes_witness :
  (Py.lookup_item "data" [("result", PStr "success"); ("data", PNone)] = None ->
     select_records (Some "1") None None
       (PDict [("result", PStr "success"); ("data", PNone)]) = Raise (KeyError "data"))
  /\ (forall data,
        Py.lookup_item "data" [("result", PStr "success"); ("data", PNone)] = Some data ->
        select_records None None None
          (PDict [("result", PStr "success"); ("data", PNone)]) = Return data)
  /\ (forall data,
        Py.lookup_item "data" [("result", PStr "success"); ("data", PNone)] = Some data ->
        Py.iter data = Raise TypeError ->
        Some "1" <> None \/ @None string <> None \/ @None string <> None ->
        select_records (Some "1") None None
          (PDict [("result", PStr "success"); ("data", PNone)]) = Raise TypeError).
Proof.
  apply (listing_shapes (Some "1") None None [("result", PStr "success"); ("data", PNone)]).
  reflexivity.
Defined.

(** ** Reading the cache *)

Section CacheRead.

Variable E : Env.

Lemma rstrip_all_space (ws : string) : all_space ws = true -> Py.rstrip ws = "".
Proof.
  induction ws as [ | c ws IH]; [ reflexivity | ]. cbn [all_space Py.rstrip].
  intros [Hc Hws]%andb_prop. by rewrite (IH Hws), Hc.
Qed.

Lemma rstrip_app_space (s ws : string) :
  all_space ws = true -> Py.rstrip (s +:+ ws) = Py.rstrip s.
Proof.
  intros Hws. induction s as [ | c s IH].
  - change ("" +:+ ws) with ws. by rewrite rstrip_all_space.
  - change (String c s +:+ ws) with (String c (s +:+ ws)). cbn [Py.rstrip]. by rewrite IH.
Qed.

Lemma rstrip_decompose (s : string) :
  exists ws, all_space ws = true /\ s = Py.rstrip s +:+ ws.
Proof.
  induction s as [ | c s (ws & Hws & Hs)]; [ by exists "" | ].
  cbn [Py.rstrip]. destruct (Py.rstrip s) as [ | a kept] eqn:Hstrip.
  - change ("" +:+ ws) with ws in Hs. subst s.
    destruct (Py.isspace c) eqn:Hc.
    + exists (String c ws). cbn [all_space]. by rewrite Hc, Hws.
    + by exists ws.
  - exists ws. split; [ exact Hws | ]. rewrite Hs at 1. reflexivity.
Qed.

Lemma rstrip_ends_clean (s : string) : ends_with_space (Py.rstrip s) = false.
Proof.
  induction s as [ | c s IH]; [ reflexivity | ]. cbn [Py.rstrip].
  destruct (Py.rstrip s) as [ | a kept].
  - destruct (Py.isspace c) eqn:Hc; [ reflexivity | ].
    unfold ends_with_space. cbn [last_char]. exact Hc.
  - exact IH.
Qed.

(** X12. Reading a cache file that is there. When its content is not valid
    in the encoding of the locale, the read raises [UnicodeDecodeError],
    which the [except IOError] around [open] does not catch. Otherwise the
    read always gives a cached address: the text of the file, decoded and
    with its line endings translated, is that address followed by
    whitespace only, and the address does not end in whitespace; it is
    the only such prefix of the text. (A file that is empty or all
    whitespace gives the empty string, not [None].) The world is not
    changed. *)
Theorem cache_read_strips (params : Namespace) (logfile : Log) (ip_cachename content : string)
    (w : World) :
  files w !! ip_cachename = Some content ->
  (decode E content = None ->
     read_cache E params logfile ip_cachename w = (Raise UnicodeDecodeError, w))
  /\ (forall text, decode E content = Some text ->
        exists cached ws,
          read_cache E params logfile ip_cachename w = (Return (Some cached), w)
          /\ Py.universal_newlines text = cached +:+ ws
          /\ all_space ws = true
          /\ ends_with_space cached = false
          /\ (forall ip ws',
                Py.universal_newlines text = ip +:+ ws' ->
                all_space ws' = true -> ends_with_space ip = false ->
                cached = ip)).
Proof.
  intros Hfile. rewrite (read_cache_present E params logfile ip_cachename content w Hfile).
  split; [ by intros -> | ]. intros text ->.
  destruct (rstrip_decompose (Py.universal_newlines text)) as (ws & Hws & Htext).
  exists (Py.rstrip (Py.universal_newlines text)), ws.
  split; [ reflexivity | split; [ exact Htext | split; [ exact Hws | split ] ] ].
  - apply rstrip_ends_clean.
  - intros ip ws' -> Hws' Hip. rewrite rstrip_app_space by exact Hws'.
    apply rstrip_fixed. intros c Hc. unfold ends_with_space in Hip. by rewrite Hc in Hip.
Qed.

End CacheRead.

(** A cache file with a Windows line ending: the address comes back
    without it. *)
Lemma cache_read_strips_witness :
  read_cache Scenario.healthy Scenario.update_args Scenario.no_log Scenario.cachename
    Cases.hand_written = (Return (Some "203.0.113.9"), Cases.hand_written).
Proof.
  destruct (cache_read_strips Scenario.healthy Scenario.update_args Scenario.no_log
              Scenario.cachename ("203.0.113.9" +:+ String "013" (String "010" ""))
              Cases.hand_written eq_refl) as [_ Hread].
  destruct (Hread ("203.0.113.9" +:+ String "013" (String "010" "")) eq_refl)
    as (cached & ws & Hcached & _ & _ & _ & Honly).
  rewrite Hcached. do 3 f_equal.
  apply (Honly "203.0.113.9" (String "010" "")); reflexivity.
Defined.

(** ** The command line *)

(** X13. [main] never gets as far as parsing its arguments. The key, the
    host name and the options [-l] and [-c] are registered without
    trouble, but [-h] for [--hard] is the option string of the help option
    that every parser starts with: [add_argument] raises [ArgumentError],
    for every argument vector, before the cache is read or a request is
    made, and the process ends with status 1. *)
Theorem parser_conflict (E : Env) (args : list string) (w : World) :
  Argparse.add_arguments [["key"]; ["hostname"]; ["-l"; "--log"]; ["-c"; "--clean"]]
    Argparse.ArgumentParser = Return ["-h"; "--help"; "-l"; "--log"; "-c"; "--clean"]
  /\ Argparse.add_argument ["-h"; "--hard"]
       ["-h"; "--help"; "-l"; "--log"; "-c"; "--clean"] = Raise (ArgumentError "-h")
  /\ main E args w = (Raise (ArgumentError "-h"), w)
  /\ exit_status (fst (main E args w)) = 1.
Proof. repeat split. Qed.

(** ** Runs that reach the provider *)

Section RunsAtProvider.

Variable E : Env.

Lemma dyndns_clean_answered (key record type : string) (items : list (string * pyval))
    (recs : list pyval) (w : World) :
  provider E (sent w) (list_request key (random_uuid E (draws w))) =
    Response (Some (PDict items)) ->
  Py.lookup_item "result" items = Some (PStr "success") ->
  Py.lookup_item "data" items = Some (PList recs) ->
  forallb is_record recs = true ->
  (forall history value,
      answered (provider E history
                  (remove_request key (record_nonce E record) record type value)) = true) ->
  dyndns_clean E key record type w =
    (Return (),
     {| sent := sent w ++ list_request key (random_uuid E (draws w))
                  :: map (fun r => remove_request key (record_nonce E record) record type
                                     (field r "value"))
                       (List.filter (matches record type) recs);
        draws := S (draws w);
        files := files w |}).
Proof.
  intros Hlist Hresult Hdata Hrecs Hanswered.
  rewrite (dyndns_clean_spec E key record type items recs w Hlist Hresult Hdata Hrecs).
  rewrite (remove_loop_all E key record type _ Hanswered) by (by apply forallb_filter).
  cbn [sending drawn sent draws files]. by rewrite <- app_assoc.
Qed.

(** X14. With logging off, an update-mode run that decides to update,
    against a provider that answers every request: the list request is
    made, each matching record of the host is asked to be removed, with
    its value, and the run then ends with [TypeError]. No add request is
    made and the cache file is not written, so the host is left without
    the address records it had. *)
Theorem update_removes_and_stops (params : Namespace) (content text ip : string)
    (items : list (string * pyval)) (recs : list pyval) (w : World) :
  logfile params = "" ->
  clean params = false ->
  files w !! ip_cachename_of params = Some content ->
  decode E content = Some text ->
  route E = SockName ip ->
  update_decision (Some (Py.rstrip (Py.universal_newlines text))) (Some ip) (hard params)
    = true ->
  provider E (sent w) (list_request (key params) (random_uuid E (draws w))) =
    Response (Some (PDict items)) ->
  Py.lookup_item "result" items = Some (PStr "success") ->
  Py.lookup_item "data" items = Some (PList recs) ->
  forallb is_record recs = true ->
  (forall history value,
      answered (provider E history
                  (remove_request (key params) (record_nonce E (hostname params))
                     (hostname params) "A" value)) = true) ->
  main_body E params w =
    (Raise TypeError,
     {| sent := sent w ++ list_request (key params) (random_uuid E (draws w))
                  :: map (fun r => remove_request (key params)
                                     (record_nonce E (hostname params))
                                     (hostname params) "A" (field r "value"))
                       (List.filter (matches (hostname params) "A") recs);
        draws := S (draws w);
        files := files w |}).
Proof.
  intros Hlog Hclean Hfile Htext Hroute Hdecision Hlist Hresult Hdata Hrecs Hanswered.
  rewrite (main_body_spec E), (Log_init_spec E). unfold do_log_of.
  rewrite Hlog, Hclean. cbn [String.eqb]. rewrite Hfile, Htext, Hroute, Hdecision.
  by rewrite (dyndns_clean_answered (key params) (hostname params) "A" items recs w
                Hlist Hresult Hdata Hrecs Hanswered).
Qed.

(** X15. With logging off, a clean-mode run against a provider that
    answers every request makes the list request, asks for each matching
    record of the host to be removed, with its value, and then ends with
    [TypeError]: it makes no other request, and the cache file, which
    the run was to delete, is as it was. *)
Theorem clean_mode_removes_and_stops (params : Namespace)
    (items : list (string * pyval)) (recs : list pyval) (w : World) :
  logfile params = "" ->
  clean params = true ->
  provider E (sent w) (list_request (key params) (random_uuid E (draws w))) =
    Response (Some (PDict items)) ->
  Py.lookup_item "result" items = Some (PStr "success") ->
  Py.lookup_item "data" items = Some (PList recs) ->
  forallb is_record recs = true ->
  (forall history value,
      answered (provider E history
                  (remove_request (key params) (record_nonce E (hostname params))
                     (hostname params) "A" value)) = true) ->
  main_body E params w =
    (Raise TypeError,
     {| sent := sent w ++ list_request (key params) (random_uuid E (draws w))
                  :: map (fun r => remove_request (key params)
                                     (record_nonce E (hostname params))
                                     (hostname params) "A" (field r "value"))
                       (List.filter (matches (hostname params) "A") recs);
        draws := S (draws w);
        files := files w |}).
Proof.
  intros Hlog Hclean Hlist Hresult Hdata Hrecs Hanswered.
  rewrite (main_body_spec E), (Log_init_spec E). unfold do_log_of.
  rewrite Hlog, Hclean. cbn [String.eqb].
  by rewrite (dyndns_clean_answered (key params) (hostname params) "A" items recs w
                Hlist Hresult Hdata Hrecs Hanswered).
Qed.

End RunsAtProvider.

Lemma update_removes_and_stops_witness :
  main_body Scenario.healthy Scenario.update_args (Scenario.cached "203.0.113.5") =
    (Raise TypeError,
     {| sent :=
          [("https://api.dreamhost.com/?",
            [("key", PStr "KEY"); ("uuid", PStr "random-0");
             ("cmd", PStr "dns-list_records"); ("format", PStr "json")]);
           ("https://api.dreamhost.com/?",
            [("key", PStr "KEY");
             ("uuid", PStr "sha1(6ba7b811-9dad-11d1-80b4-00c04fd430c8,host.example.com)");
             ("cmd", PStr "dns-remove_record"); ("record", PStr "host.example.com");
             ("type", PStr "A"); ("value", PStr "203.0.113.5"); ("format", PStr "json")])];
        draws := 1;
        files := files (Scenario.cached "203.0.113.5") |}).
Proof.
  apply (update_removes_and_stops Scenario.healthy Scenario.update_args
           ("203.0.113.5" +:+ String "010" "") ("203.0.113.5" +:+ String "010" "")
           "203.0.113.9"
           [("result", PStr "success"); ("data", PList Scenario.zone)]
           Scenario.zone (Scenario.cached "203.0.113.5")).
  - reflexivity.
  - reflexivity.
  - reflexivity.
  - reflexivity.
  - reflexivity.
  - reflexivity.
  - reflexivity.
  - reflexivity.
  - reflexivity.
  - reflexivity.
  - intros history value. reflexivity.
Defined.

Lemma clean_mode_removes_and_stops_witness :
  main_body Scenario.healthy Scenario.clean_args (Scenario.cached "203.0.113.5") =
    (Raise TypeError,
     {| sent :=
          [("https://api.dreamhost.com/?",
            [("key", PStr "KEY"); ("uuid", PStr "random-0");
             ("cmd", PStr "dns-list_records"); ("format", PStr "json")]);
           ("https://api.dreamhost.com/?",
            [("key", PStr "KEY");
             ("uuid", PStr "sha1(6ba7b811-9dad-11d1-80b4-00c04fd430c8,host.example.com)");
             ("cmd", PStr "dns-remove_record"); ("record", PStr "host.example.com");
             ("type", PStr "A"); ("value", PStr "203.0.113.5"); ("format", PStr "json")])];
        draws := 1;
        files := files (Scenario.cached "203.0.113.5") |}).
Proof.
  apply (clean_mode_removes_and_stops Scenario.healthy Scenario.clean_args
           [("result", PStr "success"); ("data", PList Scenario.zone)]
           Scenario.zone (Scenario.cached "203.0.113.5")).
  - reflexivity.
  - reflexivity.
  - reflexivity.
  - reflexivity.
  - reflexivity.
  - reflexivity.
  - intros history value. reflexivity.
Defined.
